(** * Kisan Mitra: the intent router, the agent bridge and the agents

    A shallow embedding of the control flow of [bridge.py], [all_agents.py],
    the router and the [/ask] dispatch of [app.py], and the router of
    [voice_assistant.py], together with the pieces of the Python runtime
    they rely on ([str.strip], [str.replace], [str.title], the [in]
    operator, truthiness, [json.loads], [json.dumps]).

    Conventions.
    - A Python [str] is a [string] holding its UTF-8 bytes.
    - A Python value that can come out of [json.loads] (or be [None]) is a
      [pyval]; a JSON object is an insertion-ordered association list.
    - The three outbound clients of [api_helpers.py] are the fields of a
      record [clients]; every call is appended to a log of [event]s, and the
      answer of a client may depend on the whole log so far.
    - An exception is a [Raise] result; the log is kept when one is raised.
    - Interpreter resource limits (recursion depth, the digit limit of
      [int]) are not modelled. *)

From Stdlib Require Import String Ascii List ZArith Bool Arith Lia.
From Stdlib Require Import DecimalString.
Import ListNotations.

Local Open Scope list_scope.
Local Open Scope string_scope.
Local Open Scope nat_scope.

(* ================================================================== *)
(** ** Text *)
(* ================================================================== *)

Module Text.

Definition chars (s : string) : list ascii := list_ascii_of_string s.
Definition text (l : list ascii) : string := string_of_list_ascii l.

Definition code (c : ascii) : nat := nat_of_ascii c.

(** The double quote, the backquote fence and the line feed, which cannot
    be written inside a literal. *)
Definition dq : string := String (ascii_of_nat 34) EmptyString.
Definition nl : string := String (ascii_of_nat 10) EmptyString.

Fixpoint prefixb (p s : list ascii) : bool :=
  match p, s with
  | [], _ => true
  | _ :: _, [] => false
  | a :: p', b :: s' => Ascii.eqb a b && prefixb p' s'
  end.

(** [needle in hay] on two strings. *)
Fixpoint containsb (p s : list ascii) : bool :=
  prefixb p s || match s with [] => false | _ :: s' => containsb p s' end.

Definition str_in (needle hay : string) : bool :=
  containsb (chars needle) (chars hay).

(** [s.replace(old, new)] for a non-empty [old]: occurrences are replaced
    from left to right and do not overlap.  [skip] counts the characters
    of an occurrence that are still to be dropped. *)
Fixpoint replace_from (old new : list ascii) (skip : nat) (s : list ascii)
  : list ascii :=
  match s with
  | [] => []
  | c :: s' =>
      match skip with
      | S k => replace_from old new k s'
      | O => if prefixb old s
             then new ++ replace_from old new (List.length old - 1) s'
             else c :: replace_from old new 0 s'
      end
  end.

Definition replace (old new s : string) : string :=
  text (replace_from (chars old) (chars new) 0 (chars s)).

(** Whitespace in the sense of [str.isspace], on UTF-8 bytes: the ASCII
    ones, then the two-byte and the three-byte ones. *)
Definition space1 (c : ascii) : bool :=
  let n := code c in
  ((9 <=? n) && (n <=? 13)) || ((28 <=? n) && (n <=? 32)).

Definition space2 (c1 c2 : ascii) : bool :=
  (code c1 =? 194) && ((code c2 =? 133) || (code c2 =? 160)).

Definition space3 (c1 c2 c3 : ascii) : bool :=
  let a := code c1 in let b := code c2 in let c := code c3 in
  ((a =? 225) && (b =? 154) && (c =? 128))
  || ((a =? 226) && (b =? 128)
      && (((128 <=? c) && (c <=? 138)) || (c =? 168) || (c =? 169) || (c =? 175)))
  || ((a =? 226) && (b =? 129) && (c =? 159))
  || ((a =? 227) && (b =? 128) && (c =? 128)).

Fixpoint lstrip (s : list ascii) : list ascii :=
  match s with
  | [] => []
  | c1 :: s1 =>
      if space1 c1 then lstrip s1 else
      match s1 with
      | [] => s
      | c2 :: s2 =>
          if space2 c1 c2 then lstrip s2 else
          match s2 with
          | [] => s
          | c3 :: s3 => if space3 c1 c2 c3 then lstrip s3 else s
          end
      end
  end.

(** The same scan on the reversed text: the bytes of a character come in
    reverse order. *)
Fixpoint lstrip_rev (s : list ascii) : list ascii :=
  match s with
  | [] => []
  | c1 :: s1 =>
      if space1 c1 then lstrip_rev s1 else
      match s1 with
      | [] => s
      | c2 :: s2 =>
          if space2 c2 c1 then lstrip_rev s2 else
          match s2 with
          | [] => s
          | c3 :: s3 => if space3 c3 c2 c1 then lstrip_rev s3 else s
          end
      end
  end.

Definition rstrip (s : list ascii) : list ascii := rev (lstrip_rev (rev s)).

Definition strip (s : string) : string := text (rstrip (lstrip (chars s))).

(** What [strip] may remove: a byte of ASCII whitespace, or a byte of a
    character outside ASCII. *)
Definition padding (c : ascii) : bool := space1 c || (128 <=? code c).

(** [s.title()]: the first cased character of every run of cased
    characters is upper-cased, the others of the run lower-cased.  Cased
    characters are the ASCII letters; other bytes are copied and end a
    run (exact on ASCII text). *)
Definition is_upper (c : ascii) : bool := (65 <=? code c) && (code c <=? 90).
Definition is_lower (c : ascii) : bool := (97 <=? code c) && (code c <=? 122).
Definition to_upper (c : ascii) : ascii :=
  if is_lower c then ascii_of_nat (code c - 32) else c.
Definition to_lower (c : ascii) : ascii :=
  if is_upper c then ascii_of_nat (code c + 32) else c.

Fixpoint title_from (prev_cased : bool) (s : list ascii) : list ascii :=
  match s with
  | [] => []
  | c :: s' =>
      if is_upper c || is_lower c
      then (if prev_cased then to_lower c else to_upper c) :: title_from true s'
      else c :: title_from false s'
  end.

Definition title (s : string) : string := text (title_from false (chars s)).

(** [str(z)] for an [int]. *)
Definition str_of_int (z : Z) : string := NilZero.string_of_int (Z.to_int z).

End Text.

(* ================================================================== *)
(** ** Python values *)
(* ================================================================== *)

Inductive exn : Type :=
| JSONDecodeError | AttributeError | TypeError | KeyError | IndexError.

Inductive result (A : Type) : Type :=
| Ok (a : A)
| Raise (e : exn).
Arguments Ok {A} a.
Arguments Raise {A} e.

(** A [dict] with [str] keys, in insertion order, keys distinct. *)
Definition dict (V : Type) : Type := list (string * V).

Fixpoint dict_get {V} (k : string) (d : dict V) : option V :=
  match d with
  | [] => None
  | (k', v) :: d' => if String.eqb k' k then Some v else dict_get k d'
  end.

(** [d[k] = v]: an existing key keeps its place. *)
Fixpoint dict_set {V} (k : string) (v : V) (d : dict V) : dict V :=
  match d with
  | [] => [(k, v)]
  | (k', v') :: d' =>
      if String.eqb k' k then (k, v) :: d' else (k', v') :: dict_set k v d'
  end.

Definition dict_mem {V} (k : string) (d : dict V) : bool :=
  match dict_get k d with Some _ => true | None => false end.

(** A [float] is kept as the decimal literal it was read from (or [NaN],
    [Infinity], [-Infinity]) and is printed as it was written, which is
    what Python prints when the literal is already in its shortest form. *)
#[warnings="-register-all"] Inductive pyval : Type :=
| PNone
| PBool (b : bool)
| PInt (z : Z)
| PFloat (lit : string)
| PStr (s : string)
| PList (l : list pyval)
| PDict (d : list (string * pyval)).

Module Py.
Import Text.

Definition is_digit (c : ascii) : bool := (48 <=? code c) && (code c <=? 57).
Definition digit_val (c : ascii) : Z := Z.of_nat (code c - 48).

Fixpoint digits_val (acc : Z) (s : list ascii) : Z :=
  match s with
  | [] => acc
  | c :: s' => digits_val (10 * acc + digit_val c) s'
  end.

(** The parts of a float literal: the digits of the mantissa with the
    point removed, and the power of ten they are scaled by. *)
Fixpoint split_exp (s : list ascii) : list ascii * list ascii :=
  match s with
  | [] => ([], [])
  | c :: s' =>
      if (code c =? 101) || (code c =? 69) then ([], s')
      else let (m, e) := split_exp s' in (c :: m, e)
  end.

Fixpoint frac_len (seen_point : bool) (s : list ascii) : nat :=
  match s with
  | [] => 0
  | c :: s' =>
      if code c =? 46 then frac_len true s'
      else if seen_point && is_digit c then S (frac_len seen_point s')
      else frac_len seen_point s'
  end.

Definition signed_val (s : list ascii) : Z :=
  match s with
  | c :: s' =>
      if code c =? 45 then (- digits_val 0 (filter is_digit s'))%Z
      else digits_val 0 (filter is_digit s)
  | [] => 0%Z
  end.

(** Whether the literal rounds to zero in binary64 (round to nearest,
    ties to even): the mantissa is zero, or the value is at most
    2^-1075, half of the least positive float. *)
Definition float_is_zero (lit : string) : bool :=
  let (m, e) := split_exp (chars lit) in
  let d := digits_val 0 (filter is_digit m) in
  let e10 := (signed_val e - Z.of_nat (frac_len false m))%Z in
  if existsb (fun c => is_upper c || is_lower c) m then false
  else if (d =? 0)%Z then true
  else if (0 <=? e10)%Z then false
  else (d * 2 ^ 1075 <=? 10 ^ (- e10))%Z.

(** Truthiness: what [not v] tests. *)
Definition truthy (v : pyval) : bool :=
  match v with
  | PNone => false
  | PBool b => b
  | PInt z => negb (z =? 0)%Z
  | PFloat lit => negb (float_is_zero lit)
  | PStr s => negb (String.eqb s "")
  | PList l => match l with [] => false | _ => true end
  | PDict d => match d with [] => false | _ => true end
  end.

(** [key in v] for a [str] key: membership in a mapping, an element of a
    list equal to the key, a substring of a string; a [TypeError] on
    anything else. *)
Definition contains (key : string) (v : pyval) : result bool :=
  match v with
  | PDict d => Ok (dict_mem key d)
  | PList l =>
      Ok (existsb (fun x => match x with PStr s => String.eqb s key | _ => false end) l)
  | PStr s => Ok (str_in key s)
  | _ => Raise TypeError
  end.

(** [v[key]] for a [str] key. *)
Definition getitem (v : pyval) (key : string) : result pyval :=
  match v with
  | PDict d => match dict_get key d with Some x => Ok x | None => Raise KeyError end
  | _ => Raise TypeError
  end.

(** The length in bytes of the UTF-8 character that starts with [c]. *)
Definition utf8_len (c : ascii) : nat :=
  if code c <? 192 then 1 else if code c <? 224 then 2
  else if code c <? 240 then 3 else 4.

(** [v[0]]. *)
Definition getitem0 (v : pyval) : result pyval :=
  match v with
  | PList (x :: _) => Ok x
  | PList [] => Raise IndexError
  | PStr s =>
      match chars s with
      | c :: _ => Ok (PStr (text (firstn (utf8_len c) (chars s))))
      | [] => Raise IndexError
      end
  | PDict _ => Raise KeyError
  | _ => Raise TypeError
  end.

(** [v.get(key)] and [v.get(key, default)]. *)
Definition get (v : pyval) (key : string) (default : pyval) : result pyval :=
  match v with
  | PDict d => Ok (match dict_get key d with Some x => x | None => default end)
  | _ => Raise AttributeError
  end.

(** [v.title()]. *)
Definition title_of (v : pyval) : result string :=
  match v with
  | PStr s => Ok (title s)
  | _ => Raise AttributeError
  end.

Fixpoint join (sep : string) (l : list string) : string :=
  match l with
  | [] => ""
  | [x] => x
  | x :: l' => x ++ sep ++ join sep l'
  end.

Definition hex_digit (n : nat) : ascii :=
  if n <? 10 then ascii_of_nat (48 + n) else ascii_of_nat (87 + n).

Definition hex2 (n : nat) : list ascii :=
  [hex_digit (n / 16); hex_digit (n mod 16)].

Definition hex4 (n : nat) : list ascii :=
  hex2 (n / 256) ++ hex2 (n mod 256).

(** [repr(s)] of a string: single quotes unless the string holds a
    single quote and no double quote; bytes above 127 are copied. *)
Definition repr_char (q : ascii) (c : ascii) : list ascii :=
  let n := code c in
  if n =? 92 then chars "\\"
  else if Ascii.eqb c q then ["\"%char; c]
  else if n =? 9 then chars "\t"
  else if n =? 10 then chars "\n"
  else if n =? 13 then chars "\r"
  else if (n <? 32) || (n =? 127) then chars "\x" ++ hex2 n
  else [c].

Definition repr_str (s : string) : string :=
  let q := if str_in "'" s && negb (str_in dq s)
           then ascii_of_nat 34 else "'"%char in
  text (q :: flat_map (repr_char q) (chars s) ++ [q]).

Definition float_str (lit : string) : string :=
  if String.eqb lit "NaN" then "nan"
  else if String.eqb lit "Infinity" then "inf"
  else if String.eqb lit "-Infinity" then "-inf"
  else lit.

Fixpoint repr (v : pyval) : string :=
  match v with
  | PNone => "None"
  | PBool true => "True"
  | PBool false => "False"
  | PInt z => str_of_int z
  | PFloat lit => float_str lit
  | PStr s => repr_str s
  | PList l => "[" ++ join ", " (map repr l) ++ "]"
  | PDict d =>
      "{" ++ join ", " (map (fun kv : string * pyval => let (k, x) := kv in
                                       repr_str k ++ ": " ++ repr x) d) ++ "}"
  end.

(** [str(v)], what an f-string field [{v}] expands to. *)
Definition str (v : pyval) : string :=
  match v with
  | PStr s => s
  | _ => repr v
  end.

End Py.

(* ================================================================== *)
(** ** The [json] module *)
(* ================================================================== *)

Module Json.
Import Text.
Local Open Scope list_scope.

(** *** [json.loads]

    The decoder reads the text one character at a time.  Its state is a
    stack of the containers that are still open and what it is in the
    middle of reading.  It accepts what the decoder of the standard
    library accepts: the JSON grammar, the literals [NaN], [Infinity]
    and [-Infinity], strings without raw control characters, and for a
    repeated key the last value at the place of the first. *)

Definition ncode (c : ascii) : N := N_of_ascii c.
Definition byte (n : N) : ascii := ascii_of_N n.

Definition json_ws (c : ascii) : bool :=
  (code c =? 32) || (code c =? 9) || (code c =? 10) || (code c =? 13).

Inductive keyword : Type :=
| KNull | KTrue | KFalse | KNaN | KInfinity | KNegInfinity.

Definition keyword_text (k : keyword) : list ascii :=
  chars match k with
        | KNull => "null" | KTrue => "true" | KFalse => "false"
        | KNaN => "NaN" | KInfinity => "Infinity"
        | KNegInfinity => "-Infinity"
        end.

Definition keyword_value (k : keyword) : pyval :=
  match k with
  | KNull => PNone | KTrue => PBool true | KFalse => PBool false
  | KNaN => PFloat "NaN" | KInfinity => PFloat "Infinity"
  | KNegInfinity => PFloat "-Infinity"
  end.

(** Where the decoder is inside a number: an optional minus sign; a
    zero, or a non-zero digit and more digits; optionally a point and
    one digit or more; optionally [e] or [E], an optional sign and one
    digit or more. *)
Inductive num_state : Type :=
| NMinus | NZero | NInt | NDot | NFrac | NExp | NExpSign | NExpDigits.

(** Where the decoder is inside a string: at an ordinary position, after
    a backslash, or after [\u] and some hexadecimal digits. *)
Inductive esc_state : Type :=
| EPlain | EBackslash | EHex (ds : list ascii).

Inductive frame : Type :=
| FArr (acc : list pyval)                 (* an open array and its items *)
| FKey (d : dict pyval)                   (* an open object, key to come *)
| FVal (d : dict pyval) (k : string).     (* an open object, value of [k] to come *)

Inductive mode : Type :=
| MValue                                  (* a value must come *)
| MFirst                                  (* after an opening bracket *)
| MKey (first : bool)                     (* a key must come *)
| MColon                                  (* after a key *)
| MAfter (v : pyval)                      (* after a complete value *)
| MStr (acc : list ascii) (hi : option N) (e : esc_state)
| MNum (ns : num_state) (lit : list ascii)
| MLit (k : keyword) (seen : nat).

Definition state : Type := list frame * mode.

Definition init : state := ([], MValue).

(** UTF-8, extended to lone surrogates. *)
Definition utf8 (u : N) : list ascii :=
  (if u <? 128 then [byte u]
   else if u <? 2048 then [byte (192 + u / 64); byte (128 + u mod 64)]
   else if u <? 65536 then
     [byte (224 + u / 4096); byte (128 + (u / 64) mod 64); byte (128 + u mod 64)]
   else
     [byte (240 + u / 262144); byte (128 + (u / 4096) mod 64);
      byte (128 + (u / 64) mod 64); byte (128 + u mod 64)])%N.

Definition hex_val (c : ascii) : option N :=
  let n := ncode c in
  (if (48 <=? n) && (n <=? 57) then Some (n - 48)
   else if (65 <=? n) && (n <=? 70) then Some (n - 55)
   else if (97 <=? n) && (n <=? 102) then Some (n - 87)
   else None)%N.

Fixpoint hex_value (acc : N) (ds : list ascii) : N :=
  match ds with
  | [] => acc
  | c :: ds' =>
      hex_value (16 * acc + match hex_val c with Some n => n | None => 0 end)%N ds'
  end.

Definition is_high (u : N) : bool := ((55296 <=? u) && (u <=? 56319))%N.
Definition is_low (u : N) : bool := ((56320 <=? u) && (u <=? 57343))%N.
Definition pair_up (h l : N) : N := (65536 + (h - 55296) * 1024 + (l - 56320))%N.

(** The character a one-letter escape stands for. *)
Definition unescape (c : ascii) : option ascii :=
  let n := code c in
  if (n =? 34) || (n =? 92) || (n =? 47) then Some c
  else if n =? 98 then Some (ascii_of_nat 8)
  else if n =? 102 then Some (ascii_of_nat 12)
  else if n =? 110 then Some (ascii_of_nat 10)
  else if n =? 114 then Some (ascii_of_nat 13)
  else if n =? 116 then Some (ascii_of_nat 9)
  else None.

(** A high surrogate that no low surrogate followed stays alone. *)
Definition flush (hi : option N) (acc : list ascii) : list ascii :=
  match hi with Some h => acc ++ utf8 h | None => acc end.

Definition num_value (ns : num_state) (lit : list ascii) : option pyval :=
  match ns with
  | NZero | NInt => Some (PInt (Py.signed_val lit))
  | NFrac | NExpDigits => Some (PFloat (text lit))
  | _ => None
  end.

(** After a complete value [v]: a comma, or the end of the container. *)
Definition after (stk : list frame) (v : pyval) (c : ascii) : option state :=
  if json_ws c then Some (stk, MAfter v)
  else if code c =? 44 then
    match stk with
    | FArr acc :: stk' => Some (FArr (acc ++ [v]) :: stk', MValue)
    | FVal d k :: stk' => Some (FKey (dict_set k v d) :: stk', MKey false)
    | _ => None
    end
  else if code c =? 93 then
    match stk with
    | FArr acc :: stk' => Some (stk', MAfter (PList (acc ++ [v])))
    | _ => None
    end
  else if code c =? 125 then
    match stk with
    | FVal d k :: stk' => Some (stk', MAfter (PDict (dict_set k v d)))
    | _ => None
    end
  else None.

(** The first character of a value. *)
Definition start (stk : list frame) (c : ascii) : option state :=
  let n := code c in
  if n =? 34 then Some (stk, MStr [] None EPlain)
  else if n =? 123 then Some (FKey [] :: stk, MKey true)
  else if n =? 91 then Some (FArr [] :: stk, MFirst)
  else if n =? 45 then Some (stk, MNum NMinus [c])
  else if n =? 48 then Some (stk, MNum NZero [c])
  else if Py.is_digit c then Some (stk, MNum NInt [c])
  else if n =? 110 then Some (stk, MLit KNull 1)
  else if n =? 116 then Some (stk, MLit KTrue 1)
  else if n =? 102 then Some (stk, MLit KFalse 1)
  else if n =? 78 then Some (stk, MLit KNaN 1)
  else if n =? 73 then Some (stk, MLit KInfinity 1)
  else None.

(** A string is a key when the innermost open object waits for one. *)
Definition close_string (stk : list frame) (s : string) : state :=
  match stk with
  | FKey d :: stk' => (FVal d s :: stk', MColon)
  | _ => (stk, MAfter (PStr s))
  end.

Definition step_str (stk : list frame) (acc : list ascii) (hi : option N)
           (e : esc_state) (c : ascii) : option state :=
  match e with
  | EPlain =>
      if code c =? 34 then Some (close_string stk (text (flush hi acc)))
      else if code c =? 92 then Some (stk, MStr acc hi EBackslash)
      else if code c <? 32 then None
      else Some (stk, MStr (flush hi acc ++ [c]) None EPlain)
  | EBackslash =>
      if code c =? 117 then Some (stk, MStr acc hi (EHex []))
      else match unescape c with
           | Some b => Some (stk, MStr (flush hi acc ++ [b]) None EPlain)
           | None => None
           end
  | EHex ds =>
      match hex_val c with
      | None => None
      | Some _ =>
          let ds' := ds ++ [c] in
          if List.length ds' <? 4 then Some (stk, MStr acc hi (EHex ds'))
          else
            let u := hex_value 0 ds' in
            match hi with
            | Some h =>
                if is_low u
                then Some (stk, MStr (acc ++ utf8 (pair_up h u)) None EPlain)
                else if is_high u
                then Some (stk, MStr (acc ++ utf8 h) (Some u) EPlain)
                else Some (stk, MStr (acc ++ utf8 h ++ utf8 u) None EPlain)
            | None =>
                if is_high u then Some (stk, MStr acc (Some u) EPlain)
                else Some (stk, MStr (acc ++ utf8 u) None EPlain)
            end
      end
  end.

Definition step_num (stk : list frame) (ns : num_state) (lit : list ascii)
           (c : ascii) : option state :=
  let go ns' := Some (stk, MNum ns' (lit ++ [c])) in
  let stop := match num_value ns lit with
              | Some v => after stk v c
              | None => None
              end in
  let n := code c in
  let is_e := (n =? 101) || (n =? 69) in
  match ns with
  | NMinus => if n =? 48 then go NZero
              else if Py.is_digit c then go NInt
              else if n =? 73 then Some (stk, MLit KNegInfinity 2)
              else stop
  | NZero => if n =? 46 then go NDot else if is_e then go NExp else stop
  | NInt => if Py.is_digit c then go NInt
            else if n =? 46 then go NDot else if is_e then go NExp else stop
  | NDot => if Py.is_digit c then go NFrac else stop
  | NFrac => if Py.is_digit c then go NFrac else if is_e then go NExp else stop
  | NExp => if (n =? 43) || (n =? 45) then go NExpSign
            else if Py.is_digit c then go NExpDigits else stop
  | NExpSign => if Py.is_digit c then go NExpDigits else stop
  | NExpDigits => if Py.is_digit c then go NExpDigits else stop
  end.

Definition step_lit (stk : list frame) (k : keyword) (seen : nat) (c : ascii)
  : option state :=
  match nth_error (keyword_text k) seen with
  | Some e =>
      if Ascii.eqb c e
      then if S seen =? List.length (keyword_text k)
           then Some (stk, MAfter (keyword_value k))
           else Some (stk, MLit k (S seen))
      else None
  | None => None
  end.

Definition step (st : state) (c : ascii) : option state :=
  let (stk, m) := st in
  match m with
  | MValue => if json_ws c then Some st else start stk c
  | MFirst =>
      if json_ws c then Some st
      else if code c =? 93 then
        match stk with
        | FArr _ :: stk' => Some (stk', MAfter (PList []))
        | _ => None
        end
      else start stk c
  | MKey first =>
      if json_ws c then Some st
      else if code c =? 34 then Some (stk, MStr [] None EPlain)
      else if (code c =? 125) && first then
        match stk with
        | FKey d :: stk' => Some (stk', MAfter (PDict d))
        | _ => None
        end
      else None
  | MColon =>
      if json_ws c then Some st
      else if code c =? 58 then Some (stk, MValue)
      else None
  | MAfter v => after stk v c
  | MStr acc hi e => step_str stk acc hi e c
  | MNum ns lit => step_num stk ns lit c
  | MLit k seen => step_lit stk k seen c
  end.

Fixpoint run (st : state) (s : list ascii) : option state :=
  match s with
  | [] => Some st
  | c :: s' => match step st c with Some st' => run st' s' | None => None end
  end.

(** At the end of the text: one complete value and nothing open. *)
Definition finish (st : state) : option pyval :=
  match st with
  | ([], MAfter v) => Some v
  | ([], MNum ns lit) => num_value ns lit
  | _ => None
  end.

Definition decode (s : list ascii) : option pyval :=
  match run init s with Some st => finish st | None => None end.

Definition loads (s : string) : result pyval :=
  match decode (chars s) with
  | Some v => Ok v
  | None => Raise JSONDecodeError
  end.

(** *** [json.dumps]

    With the default [ensure_ascii]: every character outside the
    printable ASCII range is written as an escape.  A float is written
    as the literal it was read from. *)

Local Open Scope string_scope.
Local Open Scope nat_scope.

(** The code points of a UTF-8 text.  [pending] counts the continuation
    bytes still to come for the character being read. *)
Fixpoint code_points (pending : nat) (acc : N) (s : list ascii) : list N :=
  match s with
  | [] => []
  | c :: s' =>
      let n := ncode c in
      match pending with
      | S k =>
          let acc' := (acc * 64 + n mod 64)%N in
          match k with
          | O => acc' :: code_points 0 0%N s'
          | S _ => code_points k acc' s'
          end
      | O =>
          if (n <? 128)%N then n :: code_points 0 0%N s'
          else if (n <? 224)%N then code_points 1 (n mod 32)%N s'
          else if (n <? 240)%N then code_points 2 (n mod 16)%N s'
          else code_points 3 (n mod 8)%N s'
      end
  end.

Definition u_escape (u : N) : list ascii :=
  (chars "\u" ++ Py.hex4 (N.to_nat u))%list.

Definition escape_point (u : N) : list ascii :=
  (if u =? 34 then chars ("\" ++ dq)
   else if u =? 92 then chars "\\"
   else if u =? 10 then chars "\n"
   else if u =? 13 then chars "\r"
   else if u =? 9 then chars "\t"
   else if u =? 8 then chars "\b"
   else if u =? 12 then chars "\f"
   else if (32 <=? u) && (u <=? 126) then [byte u]
   else if u <? 65536 then u_escape u
   else (u_escape (55296 + (u - 65536) / 1024)
         ++ u_escape (56320 + (u - 65536) mod 1024))%list)%N.

Definition dumps_str (s : string) : string :=
  dq ++ text (flat_map escape_point (code_points 0 0%N (chars s))) ++ dq.

Fixpoint spaces (n : nat) : string :=
  match n with O => "" | S k => " " ++ spaces k end.

(** The line break and indentation before an item at nesting [level];
    nothing without [indent]. *)
Definition newline_indent (indent : option nat) (level : nat) : string :=
  match indent with
  | Some n => nl ++ spaces (n * level)
  | None => ""
  end.

Definition item_separator (indent : option nat) : string :=
  match indent with Some _ => "," | None => ", " end.

Fixpoint dumps_at (indent : option nat) (level : nat) (v : pyval) : string :=
  match v with
  | PNone => "null"
  | PBool true => "true"
  | PBool false => "false"
  | PInt z => str_of_int z
  | PFloat lit => lit
  | PStr s => dumps_str s
  | PList [] => "[]"
  | PList l =>
      "[" ++ newline_indent indent (S level)
      ++ Py.join (item_separator indent ++ newline_indent indent (S level))
                 (map (dumps_at indent (S level)) l)
      ++ newline_indent indent level ++ "]"
  | PDict [] => "{}"
  | PDict d =>
      "{" ++ newline_indent indent (S level)
      ++ Py.join (item_separator indent ++ newline_indent indent (S level))
                 (map (fun kv : string * pyval =>
                         let (k, x) := kv in
                         dumps_str k ++ ": " ++ dumps_at indent (S level) x) d)
      ++ newline_indent indent level ++ "}"
  end.

Definition dumps (v : pyval) (indent : option nat) : string :=
  dumps_at indent 0 v.

End Json.

(* ================================================================== *)
(** ** Calls to the outside, and the log of them *)
(* ================================================================== *)

(** What a run does that can be observed from outside the agents: the
    calls to the helpers of [api_helpers.py], the file a photo is saved
    to, and the entries into [AgentBridge.request] (where the source
    prints its routing line). *)
Inductive event : Type :=
| Completion (prompt : string) (image : option string)
| WeatherLookup (city : pyval)
| MarketLookup (commodity market : pyval)
| ImageEncoding (path : string)
| PhotoSaved (path : string)
| BridgeRequest (target task : string) (data : dict pyval).

(** The helpers of [api_helpers.py] as seen by their callers: each one
    catches the failures of its HTTP exchange and returns a value.
    [call_gemini_api] returns a string on every path; the two data
    helpers return decoded JSON or a mapping with the key [error];
    [encode_image_to_base64] returns [None] for a missing file. *)
Record clients : Type := {
  gemini : list event -> string -> option string -> string;
  weather_api : list event -> pyval -> pyval;
  market_api : list event -> pyval -> pyval -> pyval;
  image_encoder : list event -> string -> option string
}.

(** A computation reads the clients, extends the log, and returns a value
    or raises. *)
Definition M (A : Type) : Type := clients -> list event -> result A * list event.

Definition ret {A} (a : A) : M A := fun _ log => (Ok a, log).

Definition raise {A} (e : exn) : M A := fun _ log => (Raise e, log).

Definition bind {A B} (m : M A) (k : A -> M B) : M B :=
  fun cl log =>
    match m cl log with
    | (Ok a, log') => k a cl log'
    | (Raise e, log') => (Raise e, log')
    end.

Notation "x <- m ;; k" := (bind m (fun x => k))
  (at level 61, m at next level, right associativity).

Definition lift {A} (r : result A) : M A := fun _ log => (r, log).

(** [try: m  except (those for which handles is true): h]. *)
Definition try_except {A} (m : M A) (handles : exn -> bool) (h : M A) : M A :=
  fun cl log =>
    match m cl log with
    | (Raise e, log') => if handles e then h cl log' else (Raise e, log')
    | r => r
    end.

Definition call_gemini_api (prompt : string) (image_base64 : option string)
  : M string :=
  fun cl log => (Ok (gemini cl log prompt image_base64),
                 (log ++ [Completion prompt image_base64])%list).

Definition get_weather_from_api (city : pyval) : M pyval :=
  fun cl log => (Ok (weather_api cl log city), (log ++ [WeatherLookup city])%list).

Definition get_market_data_from_gov_api (commodity market : pyval) : M pyval :=
  fun cl log => (Ok (market_api cl log commodity market),
                 (log ++ [MarketLookup commodity market])%list).

Definition encode_image_to_base64 (image_path : string) : M (option string) :=
  fun cl log => (Ok (image_encoder cl log image_path),
                 (log ++ [ImageEncoding image_path])%list).

Definition photo_save (path : string) : M unit :=
  fun _ log => (Ok tt, (log ++ [PhotoSaved path])%list).

Definition bridge_routing (target task : string) (data : dict pyval) : M unit :=
  fun _ log => (Ok tt, (log ++ [BridgeRequest target task data])%list).

(** A run from an empty log. *)
Definition exec {A} (m : M A) (cl : clients) : result A * list event := m cl [].

Definition is_completion (e : event) : bool :=
  match e with Completion _ _ => true | _ => false end.

Definition is_data_lookup (e : event) : bool :=
  match e with WeatherLookup _ | MarketLookup _ _ => true | _ => false end.


Definition count (p : event -> bool) (log : list event) : nat :=
  List.length (filter p log).

(* ================================================================== *)
(** ** [all_agents.py] and [bridge.py] *)
(* ================================================================== *)

(** The six agent classes.  An instance holds nothing but a reference to
    the bridge. *)
Inductive agent : Type :=
| Crop | Market | Scheme | Weather | Organic | Soil.

Module Prompts.
Import Text.

Definition crop_prompt (lang : string) : string :=
  String.concat ""
    [nl;
     "        You are an expert agronomist specializing in crop diseases in India."; nl;
     "        Analyze the provided image of a plant leaf."; nl;
     "        1. Identify the plant if possible (e.g., tomato, rice)."; nl;
     "        2. Identify the disease or pest causing the symptoms shown."; nl;
     "        3. Explain the cause of the disease."; nl;
     "        4. Provide a list of actionable steps the farmer should take."; nl;
     "        5. Suggest at least two affordable, locally available remedies (one organic/natural, one chemical)."; nl;
     "        "; nl;
     "        IMPORTANT: Provide the entire response in the following language: "; lang; "."; nl;
     "        "].

Definition market_prompt (commodity market weather_report records lang : string) : string :=
  String.concat ""
    [nl;
     "        You are a market analyst for Indian farmers. Provide simple, actionable advice."; nl;
     "        Analyze the following real-time market data for '"; commodity; "' in '"; market; "'."; nl;
     "        Also consider this weather forecast: "; weather_report; nl;
     nl;
     "        Market Data:"; nl;
     "        "; records; nl;
     nl;
     "        Provide a summary including min, max, and modal price, and a clear recommendation on whether to sell today."; nl;
     "        IMPORTANT: Provide the entire response in the following language: "; lang; "."; nl;
     "        "].

Definition scheme_prompt (query lang : string) : string :=
  String.concat ""
    [nl;
     "        You are an expert on Indian government agricultural schemes."; nl;
     "        A farmer has asked for help with: '"; query; "'."; nl;
     "        Identify the most relevant schemes. For each, explain the benefit, eligibility, and how to apply."; nl;
     "        IMPORTANT: Provide the entire response in the following language: "; lang; "."; nl;
     "        "].

Definition weather_prompt (report lang : string) : string :=
  String.concat ""
    [nl;
     "        You are a weather reporter for an Indian farmer."; nl;
     "        Take the following weather data and present it as a simple, clear report."; nl;
     nl;
     "        Weather Data:"; nl;
     "        "; report; nl;
     nl;
     "        Example format:"; nl;
     "        Weather for [City]:"; nl;
     "        - Condition: [Condition]"; nl;
     "        - Temperature: [Temperature]°C"; nl;
     "        - Humidity: [Humidity]%"; nl;
     nl;
     "        IMPORTANT: Provide the entire response in the following language: "; lang; "."; nl;
     "        "].

Definition organic_prompt (topic lang : string) : string :=
  String.concat ""
    [nl;
     "        You are an expert in organic farming in India. A farmer wants to know about '"; topic; "'."; nl;
     "        Provide a practical, step-by-step guide."; nl;
     "        IMPORTANT: Provide the entire response in the following language: "; lang; "."; nl;
     "        "].

Definition soil_prompt (query lang : string) : string :=
  String.concat ""
    [nl;
     "        You are an expert soil scientist for Indian agriculture. A farmer has described their soil: "; dq; query; dq; "."; nl;
     "        Provide an analysis: Likely soil type, characteristics, suitable crops, and improvement steps."; nl;
     "        IMPORTANT: Provide the entire response in a clear, easy-to-understand format in the following language: "; lang; "."; nl;
     "        "].

End Prompts.

Module WeatherAgent.
Import Text.

(** [WeatherAgent.handle_request]. *)
Definition handle_request (task : string) (data : dict pyval) : M string :=
  if String.eqb task "get_simple_forecast" then
    let city := match dict_get "city" data with Some v => v | None => PNone end in
    if negb (Py.truthy city) then ret "No city provided."
    else
      weather_data <- get_weather_from_api city ;;
      has_error <- lift (Py.contains "error" weather_data) ;;
      if has_error then ret "Weather data unavailable."
      else
        weather <- lift (Py.getitem weather_data "weather") ;;
        first <- lift (Py.getitem0 weather) ;;
        desc <- lift (Py.getitem first "description") ;;
        main <- lift (Py.getitem weather_data "main") ;;
        temp <- lift (Py.getitem main "temp") ;;
        condition <- lift (Py.title_of desc) ;;
        ret ("Forecast for " ++ Py.str city ++ ": " ++ condition
             ++ " with temperatures around " ++ Py.str temp ++ "°C.")
  else ret "Unknown task.".

(** [WeatherAgent.get_weather]. *)
Definition get_weather (city lang : pyval) : M string :=
  if negb (Py.truthy city)
  then ret "Please tell me the city or town for the weather forecast."
  else
    weather_data <- get_weather_from_api city ;;
    has_error <- lift (Py.contains "error" weather_data) ;;
    if has_error then
      reason <- lift (Py.getitem weather_data "error") ;;
      ret ("Could not get weather for '" ++ Py.str city ++ "'. Reason: "
           ++ Py.str reason)
    else
      main <- lift (Py.getitem weather_data "main") ;;
      weather <- lift (Py.getitem weather_data "weather") ;;
      first <- lift (Py.getitem0 weather) ;;
      desc <- lift (Py.getitem first "description") ;;
      name <- lift (Py.getitem weather_data "name") ;;
      condition <- lift (Py.title_of desc) ;;
      temp <- lift (Py.getitem main "temp") ;;
      humidity <- lift (Py.getitem main "humidity") ;;
      let report_data :=
        PDict [("city", name); ("condition", PStr condition);
               ("temperature_celsius", temp); ("humidity_percent", humidity)] in
      call_gemini_api
        (Prompts.weather_prompt (Json.dumps report_data None) (Py.str lang)) None.

End WeatherAgent.

Module AgentBridge.

(** [self._agents]. *)
Definition t : Type := dict agent.

Definition init : t := [].

Definition register_agent (b : t) (name : string) (agent_instance : agent) : t :=
  dict_set name agent_instance b.

(** The attribute [handle_request] of an instance, when its class
    defines one: only [WeatherAgent] does. *)
Definition handle_request_of (a : agent)
  : option (string -> dict pyval -> M string) :=
  match a with
  | Weather => Some WeatherAgent.handle_request
  | _ => None
  end.

Definition request (b : t) (target_agent_name task : string) (data : dict pyval)
  : M string :=
  _ <- bridge_routing target_agent_name task data ;;
  match dict_get target_agent_name b with
  | Some target_agent =>
      match handle_request_of target_agent with
      | Some handle_request => handle_request task data
      | None =>
          ret ("Error: Agent '" ++ target_agent_name ++ "' cannot handle requests.")
      end
  | None => ret ("Error: Agent '" ++ target_agent_name ++ "' not found.")
  end.

End AgentBridge.

Module CropAgent.

Definition diagnose (image_path : string) (lang : pyval) : M string :=
  image_base64 <- encode_image_to_base64 image_path ;;
  match image_base64 with
  | None => ret "Error: Could not read or encode the image file."
  | Some img =>
      if String.eqb img ""
      then ret "Error: Could not read or encode the image file."
      else call_gemini_api (Prompts.crop_prompt (Py.str lang)) (Some img)
  end.

End CropAgent.

Module MarketAgent.

Definition get_market_price (bridge : AgentBridge.t)
           (commodity market lang : pyval) : M string :=
  if negb (Py.truthy commodity) || negb (Py.truthy market)
  then ret "To get market prices, please tell me the crop and the market name (mandi)."
  else
    market_data <- get_market_data_from_gov_api commodity market ;;
    has_error <- lift (Py.contains "error" market_data) ;;
    if has_error then
      reason <- lift (Py.getitem market_data "error") ;;
      ret ("Sorry, I could not fetch market data. Reason: " ++ Py.str reason)
    else
      weather_report <-
        AgentBridge.request bridge "WeatherAgent" "get_simple_forecast"
                            [("city", market)] ;;
      records <- lift (Py.getitem market_data "records") ;;
      call_gemini_api
        (Prompts.market_prompt (Py.str commodity) (Py.str market) weather_report
                               (Json.dumps records (Some 2)) (Py.str lang)) None.

End MarketAgent.

Module SchemeAgent.

Definition find_schemes (query lang : pyval) : M string :=
  if negb (Py.truthy query)
  then ret "Please tell me what kind of scheme or subsidy you are looking for."
  else call_gemini_api (Prompts.scheme_prompt (Py.str query) (Py.str lang)) None.

End SchemeAgent.

Module OrganicAgent.

Definition get_tips (topic lang : pyval) : M string :=
  if negb (Py.truthy topic)
  then ret "Please tell me what organic farming topic you are interested in."
  else call_gemini_api (Prompts.organic_prompt (Py.str topic) (Py.str lang)) None.

End OrganicAgent.

Module SoilAgent.

Definition analyze_soil (query lang : pyval) : M string :=
  if negb (Py.truthy query)
  then ret "Please describe your soil. For example, 'My soil is red and does not hold water well'."
  else call_gemini_api (Prompts.soil_prompt (Py.str query) (Py.str lang)) None.

End SoilAgent.

(* ================================================================== *)
(** ** [app.py]: the router and the [/ask] route *)
(* ================================================================== *)

Module App.
Import Text.

(** The module-level table [agents] and the bridge filled from it. *)
Definition agents : dict agent :=
  [("CropAgent", Crop); ("MarketAgent", Market); ("SchemeAgent", Scheme);
   ("WeatherAgent", Weather); ("OrganicAgent", Organic); ("SoilAgent", Soil)].

Definition bridge : AgentBridge.t :=
  fold_left (fun b (entry : string * agent) =>
               AgentBridge.register_agent b (fst entry) (snd entry))
            agents AgentBridge.init.

Definition router_prompt (query : string) : string :=
  String.concat ""
    [nl;
     "    You are an intelligent router for an agricultural AI assistant called Kisan Mitra. Your job is to analyze a farmer's query and determine which expert agent should handle it. You must also extract any necessary information (parameters) from the query."; nl;
     nl;
     "    The user's query is: "; dq; query; dq; nl;
     nl;
     "    Here are the available agents and the keywords they respond to:"; nl;
     "    - "; dq; "WeatherAgent"; dq; ": For questions about weather, forecast, rain, temperature, humidity."; nl;
     "    - "; dq; "MarketAgent"; dq; ": For questions about market prices, mandi rates, crop prices."; nl;
     "    - "; dq; "SchemeAgent"; dq; ": For questions about government schemes, subsidies, PM-KISAN, loans."; nl;
     "    - "; dq; "SoilAgent"; dq; ": For questions describing soil type (e.g., "; dq; "my soil is red and sandy"; dq; ", "; dq; "black and sticky"; dq; ")."; nl;
     "    - "; dq; "OrganicAgent"; dq; ": For questions about organic farming, compost, natural pesticides."; nl;
     "    - "; dq; "CropAgent"; dq; ": For questions about crop diseases, pests, sick plants (usually triggered by a photo)."; nl;
     "    - "; dq; "General"; dq; ": For polite closings like "; dq; "thank you"; dq; ", "; dq; "ok"; dq; ", "; dq; "bye"; dq; "."; nl;
     nl;
     "    Your response must be a single, clean JSON object with two keys: "; dq; "agent"; dq; " and "; dq; "parameters"; dq; "."; nl;
     nl;
     "    Examples:"; nl;
     "    - Query: "; dq; "weather in hyderabad?"; dq; " -> {"; dq; "agent"; dq; ": "; dq; "WeatherAgent"; dq; ", "; dq; "parameters"; dq; ": {"; dq; "city"; dq; ": "; dq; "Hyderabad"; dq; "}}"; nl;
     "    - Query: "; dq; "What is the price of potato in Agra?"; dq; " -> {"; dq; "agent"; dq; ": "; dq; "MarketAgent"; dq; ", "; dq; "parameters"; dq; ": {"; dq; "commodity"; dq; ": "; dq; "Potato"; dq; ", "; dq; "market"; dq; ": "; dq; "Agra"; dq; "}}"; nl;
     "    - Query: "; dq; "Tell me about the PM-KISAN scheme"; dq; " -> {"; dq; "agent"; dq; ": "; dq; "SchemeAgent"; dq; ", "; dq; "parameters"; dq; ": {"; dq; "query"; dq; ": "; dq; "PM-KISAN scheme"; dq; "}}"; nl;
     "    - Query: "; dq; "My soil is black and sticky"; dq; " -> {"; dq; "agent"; dq; ": "; dq; "SoilAgent"; dq; ", "; dq; "parameters"; dq; ": {"; dq; "query"; dq; ": "; dq; "My soil is black and sticky"; dq; "}}"; nl;
     "    - Query: "; dq; "Hyderabad"; dq; " -> {"; dq; "agent"; dq; ": "; dq; "WeatherAgent"; dq; ", "; dq; "parameters"; dq; ": {"; dq; "city"; dq; ": "; dq; "Hyderabad"; dq; "}}"; nl;
     "    - Query: "; dq; "how to make compost"; dq; " -> {"; dq; "agent"; dq; ": "; dq; "OrganicAgent"; dq; ", "; dq; "parameters"; dq; ": {"; dq; "topic"; dq; ": "; dq; "how to make compost"; dq; "}}"; nl;
     "    - Query: "; dq; "thank you"; dq; " -> {"; dq; "agent"; dq; ": "; dq; "General"; dq; ", "; dq; "parameters"; dq; ": {"; dq; "response"; dq; ": "; dq; "You're welcome! Let me know if you have more questions."; dq; "}}"; nl;
     "    "].

Definition fence : string := "```".
Definition json_fence : string := "```json".

(** [response_text.strip().replace("```json", "").replace("```", "")]. *)
Definition clean (response_text : string) : string :=
  replace fence "" (replace json_fence "" (strip response_text)).

Definition unclear : pyval :=
  PDict [("agent", PStr "Unclear"); ("parameters", PDict [])].

Definition route_query_to_agent (query lang : pyval) : M pyval :=
  response_text <- call_gemini_api (router_prompt (Py.str query)) None ;;
  try_except
    (lift (Json.loads (clean response_text)))
    (fun e => match e with JSONDecodeError | AttributeError => true | _ => false end)
    (ret unclear).

(** [agent_name in agents]: a list or a mapping cannot be hashed. *)
Definition in_agents (agent_name : pyval) : result bool :=
  match agent_name with
  | PStr s => Ok (dict_mem s agents)
  | PList _ | PDict _ => Raise TypeError
  | _ => Ok false
  end.

Definition is_str (v : pyval) (s : string) : bool :=
  match v with PStr s' => String.eqb s' s | _ => false end.

(** A method call on an instance: the method exists on its class or the
    call raises. *)
Definition call_get_market_price (a : agent) (commodity market lang : pyval) :=
  match a with
  | Market => MarketAgent.get_market_price bridge commodity market lang
  | _ => raise AttributeError
  end.

Definition call_find_schemes (a : agent) (query lang : pyval) :=
  match a with
  | Scheme => SchemeAgent.find_schemes query lang
  | _ => raise AttributeError
  end.

Definition call_get_weather (a : agent) (city lang : pyval) :=
  match a with
  | Weather => WeatherAgent.get_weather city lang
  | _ => raise AttributeError
  end.

Definition call_get_tips (a : agent) (topic lang : pyval) :=
  match a with
  | Organic => OrganicAgent.get_tips topic lang
  | _ => raise AttributeError
  end.

Definition call_analyze_soil (a : agent) (query lang : pyval) :=
  match a with
  | Soil => SoilAgent.analyze_soil query lang
  | _ => raise AttributeError
  end.

Definition call_diagnose (a : agent) (image_path : string) (lang : pyval) :=
  match a with
  | Crop => CropAgent.diagnose image_path lang
  | _ => raise AttributeError
  end.

Definition not_sure : string :=
  "I'm sorry, I'm not sure how to help with that. Could you please rephrase your question?".

(** The chain of tests inside [try] in [ask]. *)
Definition dispatch (agent_name : pyval) (target_agent : agent)
           (params language : pyval) : M pyval :=
  if is_str agent_name "MarketAgent" then
    commodity <- lift (Py.get params "commodity" PNone) ;;
    market <- lift (Py.get params "market" PNone) ;;
    r <- call_get_market_price target_agent commodity market language ;;
    ret (PStr r)
  else if is_str agent_name "SchemeAgent" then
    query <- lift (Py.get params "query" PNone) ;;
    r <- call_find_schemes target_agent query language ;;
    ret (PStr r)
  else if is_str agent_name "WeatherAgent" then
    city <- lift (Py.get params "city" PNone) ;;
    r <- call_get_weather target_agent city language ;;
    ret (PStr r)
  else if is_str agent_name "OrganicAgent" then
    topic <- lift (Py.get params "topic" PNone) ;;
    r <- call_get_tips target_agent topic language ;;
    ret (PStr r)
  else if is_str agent_name "SoilAgent" then
    query <- lift (Py.get params "query" PNone) ;;
    r <- call_analyze_soil target_agent query language ;;
    ret (PStr r)
  else ret (PStr not_sure).

(** [os.path.join] of the upload folder and a file name. *)
Definition path_join (folder name : string) : string :=
  if prefixb (chars "/") (chars name) then name else folder ++ "/" ++ name.

(** The request as [ask] reads it: the name of the uploaded photo if
    there is one, the [language] field of the form, the JSON body. *)
Record request : Type := {
  files_photo : option string;
  form_language : option string;
  json : pyval
}.

(** [ask]; the value returned is [result], which the route wraps as
    the field [response] of its JSON answer. *)
Definition ask (req : request) : M pyval :=
  match files_photo req with
  | Some photo_filename =>
      let language :=
        PStr (match form_language req with Some l => l | None => "English" end) in
      let filename := path_join "uploads" photo_filename in
      _ <- photo_save filename ;;
      target_agent <- lift (match dict_get "CropAgent" agents with
                            | Some a => Ok a
                            | None => Raise KeyError
                            end) ;;
      r <- call_diagnose target_agent filename language ;;
      ret (PStr r)
  | None =>
      let data := json req in
      query <- lift (Py.get data "query" PNone) ;;
      language <- lift (Py.get data "language" (PStr "English")) ;;
      routing_info <- route_query_to_agent query language ;;
      agent_name <- lift (Py.get routing_info "agent" PNone) ;;
      params <- lift (Py.get routing_info "parameters" (PDict [])) ;;
      if is_str agent_name "General"
      then lift (Py.get params "response" (PStr "You're welcome!"))
      else
        known <- lift (in_agents agent_name) ;;
        if known then
          target_agent <- lift (match agent_name with
                                | PStr s => match dict_get s agents with
                                            | Some a => Ok a
                                            | None => Raise KeyError
                                            end
                                | _ => Raise KeyError
                                end) ;;
          try_except (dispatch agent_name target_agent params language)
                     (fun _ => true)
                     (ret (PStr "Sorry, something went wrong."))
        else ret (PStr not_sure)
  end.

End App.

(* ================================================================== *)
(** ** [voice_assistant.py]: the router *)
(* ================================================================== *)

Module VoiceAssistant.
Import Text.

Definition router_prompt (query : string) : string :=
  String.concat ""
    [nl;
     "    You are an intelligent router for an agricultural AI assistant. Your job is to analyze a farmer's query, identify the correct agent, and extract all necessary parameters."; nl;
     "    The user's query is: "; dq; query; dq; nl;
     "    Your response must be a JSON object."; nl;
     "    Examples:"; nl;
     "    - Query: "; dq; "weather in hyderabad"; dq; " -> {"; dq; "agent"; dq; ": "; dq; "WeatherAgent"; dq; ", "; dq; "parameters"; dq; ": {"; dq; "city"; dq; ": "; dq; "Hyderabad"; dq; "}}"; nl;
     "    - Query: "; dq; "What is the price of potato in Agra?"; dq; " -> {"; dq; "agent"; dq; ": "; dq; "MarketAgent"; dq; ", "; dq; "parameters"; dq; ": {"; dq; "commodity"; dq; ": "; dq; "Potato"; dq; ", "; dq; "market"; dq; ": "; dq; "Agra"; dq; "}}"; nl;
     "    "].

Definition clean (response_text : string) : string :=
  replace "```" "" (replace "```json" "" (strip response_text)).

Definition unclear : pyval :=
  PDict [("agent", PStr "Unclear"); ("parameters", PDict [])].

Definition route_query_to_agent (query lang : string) : M pyval :=
  response_text <- call_gemini_api (router_prompt query) None ;;
  try_except
    (lift (Json.loads (clean response_text)))
    (fun e => match e with JSONDecodeError | AttributeError => true | _ => false end)
    (ret unclear).

End VoiceAssistant.

(* ================================================================== *)
(** ** The vocabulary of the properties, and concrete scenarios *)
(* ================================================================== *)

(** The shape the specification gives a route decision: a mapping with
    the keys [agent] and [parameters]. *)
Definition has_both_keys (v : pyval) : bool :=
  match v with
  | PDict d => dict_mem "agent" d && dict_mem "parameters" d
  | _ => false
  end.

Definition agent_labels : list string :=
  ["CropAgent"; "MarketAgent"; "SchemeAgent"; "WeatherAgent"; "OrganicAgent";
   "SoilAgent"; "General"; "Unclear"].

Definition is_str_value (v : pyval) : bool :=
  match v with PStr _ => true | _ => false end.

(** A well-formed route decision: a label of the fixed set, and
    parameters that map strings to strings. *)
Definition is_route_decision (v : pyval) : bool :=
  match v with
  | PDict d =>
      match dict_get "agent" d, dict_get "parameters" d with
      | Some (PStr label), Some (PDict ps) =>
          existsb (String.eqb label) agent_labels
          && forallb (fun kv : string * pyval => is_str_value (snd kv)) ps
      | _, _ => false
      end
  | _ => false
  end.

Module Scenario.
Import Text.

(** Clients that give the same answers whatever they are asked. *)
Definition fixed_clients (reply : string) (weather market : pyval) : clients :=
  {| gemini := fun _ _ _ => reply;
     weather_api := fun _ _ => weather;
     market_api := fun _ _ _ => market;
     image_encoder := fun _ _ => None |}.

Definition weather_of (description : string) (temp : Z) : pyval :=
  PDict [("weather", PList [PDict [("description", PStr description)]]);
         ("main", PDict [("temp", PInt temp)])].

Definition potato_records : pyval :=
  PDict [("records",
          PList [PDict [("min_price", PStr "800"); ("max_price", PStr "1200");
                        ("modal_price", PStr "1000")]])].

Definition agra_forecast : string :=
  "Forecast for Agra: Clear Sky with temperatures around 28°C.".


(** Replies of the completion client to the router. *)
Definition reply_without_parameters : string :=
  "{" ++ dq ++ "agent" ++ dq ++ ": " ++ dq ++ "WeatherAgent" ++ dq ++ "}".

Definition reply_with_preamble : string :=
  "Sure! " ++ reply_without_parameters.

Definition reply_weather_pune : string :=
  "  {" ++ dq ++ "agent" ++ dq ++ ": " ++ dq ++ "WeatherAgent" ++ dq ++ ", "
  ++ dq ++ "parameters" ++ dq ++ ": {" ++ dq ++ "city" ++ dq ++ ": "
  ++ dq ++ "Pune" ++ dq ++ "}} " ++ nl.

Definition reply_with_fence_in_text : string :=
  "{" ++ dq ++ "agent" ++ dq ++ ": " ++ dq ++ "General" ++ dq ++ ", "
  ++ dq ++ "parameters" ++ dq ++ ": {" ++ dq ++ "response" ++ dq ++ ": "
  ++ dq ++ "Use ```x``` here" ++ dq ++ "}}".

Definition reply_crop : string :=
  "{" ++ dq ++ "agent" ++ dq ++ ": " ++ dq ++ "CropAgent" ++ dq ++ ", "
  ++ dq ++ "parameters" ++ dq ++ ": {}}".

Definition reply_unknown_label : string :=
  "{" ++ dq ++ "agent" ++ dq ++ ": " ++ dq ++ "IrrigationAgent" ++ dq ++ ", "
  ++ dq ++ "parameters" ++ dq ++ ": {}}".

Definition text_request (query : string) : App.request :=
  {| App.files_photo := None;
     App.form_language := None;
     App.json := PDict [("query", PStr query); ("language", PStr "English")] |}.

End Scenario.

(* ================================================================== *)
(** ** Bounds on what a computation adds to the log *)
(* ================================================================== *)

(** [m] only extends the log, and what it adds holds at most [nc]
    completion calls and at most [nd] data lookups. *)
Definition adds_at_most {A} (nc nd : nat) (m : M A) : Prop :=
  forall cl log,
    exists added,
      snd (m cl log) = (log ++ added)%list
      /\ count is_completion added <= nc
      /\ count is_data_lookup added <= nd.

(* ================================================================== *)
(** ** Fenced replies *)
(* ================================================================== *)

(** The character the fence markers are made of. *)
Definition backquote : ascii := ascii_of_nat 96.

(** A reply that wraps [body] in a fence opened by [opening], with
    whitespace [before] and [after] the block. *)
Definition fenced (before opening body after : string) : string :=
  before ++ opening ++ body ++ "```" ++ after.

(* ================================================================== *)
(** ** [api_helpers.py]: the helpers over environment and HTTP *)
(* ================================================================== *)

Module ApiHelpers.
Import Text.

(** What the HTTP library does with one request, as far as a helper can
    tell: the calls of its [try] block (send, [raise_for_status],
    [json]) give the decoded body, or one of them raises a
    [RequestException] (with the text of the exception), or something
    else is raised. *)
Inductive exchange : Type :=
| Decoded (body : pyval)
| RequestException (message : string)
| OtherException.

Inductive http_request : Type :=
| Post (url : string) (headers : dict string) (payload : pyval)
| Get (url : string) (params : dict pyval).

Record world : Type := {
  getenv : string -> option string;
  http : http_request -> exchange
}.

(** [os.getenv(name)] when the test [not api_key] lets it through. *)
Definition key_of (w : world) (name : string) : option string :=
  match getenv w name with
  | Some k => if String.eqb k "" then None else Some k
  | None => None
  end.

Definition and_then {A B} (r : result A) (k : A -> result B) : result B :=
  match r with Ok a => k a | Raise e => Raise e end.

Definition key_missing : string :=
  "Error: GOOGLE_API_KEY not found in .env file. Please get a key from Google AI Studio.".
Definition blocked : string :=
  "The AI model responded, but the content may have been blocked for safety reasons.".
Definition request_error : string :=
  "API Request Error: Could not connect to Google AI. Please check your API key and ensure the API is enabled in your Google Cloud project.".
Definition unexpected : string :=
  "An unexpected error occurred during the API call.".

(** [result['candidates'][0]['content']['parts'][0]['text']]. *)
Definition first_text (body : pyval) : result pyval :=
  and_then (Py.getitem body "candidates") (fun candidates =>
  and_then (Py.getitem0 candidates) (fun candidate =>
  and_then (Py.getitem candidate "content") (fun content =>
  and_then (Py.getitem content "parts") (fun parts =>
  and_then (Py.getitem0 parts) (fun part =>
  Py.getitem part "text"))))).

(** What the [try] block of [call_gemini_api] does with the decoded
    body. *)
Definition read_reply (body : pyval) : result pyval :=
  and_then (Py.get body "candidates" PNone) (fun candidates =>
  if Py.truthy candidates then first_text body else Ok (PStr blocked)).

Definition gemini_url (api_key : string) : string :=
  "https://generativelanguage.googleapis.com/v1beta/models/gemini-2.0-flash:generateContent?key="
  ++ api_key.

Definition gemini_parts (prompt : string) (image_base64 : option string)
  : list pyval :=
  (PDict [("text", PStr prompt)]
   :: match image_base64 with
      | Some img =>
          if String.eqb img "" then []
          else [PDict [("inlineData",
                        PDict [("mimeType", PStr "image/jpeg"); ("data", PStr img)])]]
      | None => []
      end)%list.

(** [call_gemini_api]: the value returned and the requests sent. *)
Definition call_gemini_api (w : world) (prompt : string)
           (image_base64 : option string) : pyval * list http_request :=
  match key_of w "GOOGLE_API_KEY" with
  | None => (PStr key_missing, [])
  | Some api_key =>
      let headers := [("Content-Type", "application/json")] in
      let payload :=
        PDict [("contents",
                PList [PDict [("role", PStr "user");
                              ("parts", PList (gemini_parts prompt image_base64))]])] in
      let request := Post (gemini_url api_key) headers payload in
      (match http w request with
       | Decoded body =>
           match read_reply body with
           | Ok text => text
           | Raise _ => PStr unexpected
           end
       | RequestException _ => PStr request_error
       | OtherException => PStr unexpected
       end, [request])
  end.

(** [get_market_data_from_gov_api]: the value returned, or [None] when
    something other than a [RequestException] is raised and goes on to
    the caller; and the requests sent. *)
Definition get_market_data_from_gov_api (w : world) (commodity market : pyval)
  : option pyval * list http_request :=
  match key_of w "DATA_GOV_IN_API_KEY" with
  | None => (Some (PDict [("error", PStr "DATA_GOV_IN_API_KEY not found.")]), [])
  | Some api_key =>
      let base_url :=
        "https://api.data.gov.in/resource/9ef84268-d588-465a-a308-a864a43d0070" in
      let params :=
        [("api-key", PStr api_key); ("format", PStr "json");
         ("offset", PStr "0"); ("limit", PStr "10");
         ("filters[commodity]", commodity); ("filters[market]", market)] in
      (match http w (Get base_url params) with
       | Decoded body => Some body
       | RequestException message => Some (PDict [("error", PStr message)])
       | OtherException => None
       end, [Get base_url params])
  end.

(** [get_weather_from_api], in the same way. *)
Definition get_weather_from_api (w : world) (city : pyval)
  : option pyval * list http_request :=
  match key_of w "OPENWEATHER_API_KEY" with
  | None => (Some (PDict [("error", PStr "OPENWEATHER_API_KEY not found.")]), [])
  | Some api_key =>
      let base_url := "http://api.openweathermap.org/data/2.5/weather" in
      let params := [("q", city); ("appid", PStr api_key); ("units", PStr "metric")] in
      (match http w (Get base_url params) with
       | Decoded body => Some body
       | RequestException message => Some (PDict [("error", PStr message)])
       | OtherException => None
       end, [Get base_url params])
  end.

(** The clients of the agents are these helpers over [w]: every answer
    the agents get is what the helper returns, the data helpers raise
    nothing and the completion helper returns a string. *)
Definition serves (w : world) (cl : clients) : Prop :=
  (forall log prompt image,
      fst (call_gemini_api w prompt image) = PStr (gemini cl log prompt image))
  /\ (forall log city,
         fst (get_weather_from_api w city) = Some (weather_api cl log city))
  /\ (forall log commodity market,
         fst (get_market_data_from_gov_api w commodity market)
         = Some (market_api cl log commodity market)).

End ApiHelpers.

(* ================================================================== *)
(** ** A deployment without keys *)
(* ================================================================== *)

Module NoKeys.

(** No variable is set in the environment, and nothing can be sent. *)
Definition world : ApiHelpers.world :=
  {| ApiHelpers.getenv := fun _ => None;
     ApiHelpers.http := fun _ => ApiHelpers.OtherException |}.

(** The clients the agents then have: the helpers over that world. *)
Definition helpers : clients :=
  {| gemini := fun _ _ _ => ApiHelpers.key_missing;
     weather_api := fun _ _ => PDict [("error", PStr "OPENWEATHER_API_KEY not found.")];
     market_api := fun _ _ _ => PDict [("error", PStr "DATA_GOV_IN_API_KEY not found.")];
     image_encoder := fun _ _ => None |}.

End NoKeys.

(* ================================================================== *)
(** ** [voice_assistant.py]: the voices and the language menu *)
(* ================================================================== *)

Module Voices.
Import Text.

(** An entry of [voice.languages]: a string with some speech drivers,
    bytes with others. *)
Inductive language : Type :=
| LangStr (code : string)
| LangBytes (raw : string).

(** A voice of the speech engine. *)
Record voice : Type := {
  voice_id : string;
  voice_name : string;
  languages : list language
}.

(** The mapping [{"id": ..., "name": ...}] kept for a language. *)
Record voice_info : Type := { id : string; name : string }.

(** [voice.languages[0] if voice.languages else 'en_US']. *)
Definition lang_code (v : voice) : language :=
  match languages v with
  | l :: _ => l
  | [] => LangStr "en_US"
  end.

(** The loop of [discover_voices] from the mapping built so far.  On
    bytes, [replace] with string arguments raises; the voice is skipped. *)
Fixpoint discover_from (available_voices : dict voice_info) (voices : list voice)
  : dict voice_info :=
  match voices with
  | [] => available_voices
  | v :: rest =>
      match lang_code v with
      | LangStr code =>
          let lang_code_normalized := replace "_" "-" code in
          if dict_mem lang_code_normalized available_voices
          then discover_from available_voices rest
          else discover_from
                 (dict_set lang_code_normalized
                           {| id := voice_id v; name := voice_name v |}
                           available_voices)
                 rest
      | LangBytes _ => discover_from available_voices rest
      end
  end.

Definition discover_voices (voices : list voice) : dict voice_info :=
  discover_from [] voices.

(** [desired_languages] of [main]. *)
Definition desired_languages : dict string :=
  [("en-US", "English"); ("hi-IN", "हिन्दी"); ("kn-IN", "ಕನ್ನಡ");
   ("te-IN", "తెలుగు"); ("ta-IN", "தமிழ்")].

(** An entry of [display_map]. *)
Record menu_entry : Type := {
  entry_name : string;
  rec_code : string;
  entry_voice_id : string
}.

(** The loop of [main] over the desired languages. *)
Fixpoint menu_from (menu_index : nat) (display_map : dict menu_entry)
         (desired : dict string) (system_voices : dict voice_info)
  : dict menu_entry :=
  match desired with
  | [] => display_map
  | (code, language_name) :: rest =>
      match dict_get code system_voices with
      | Some info =>
          menu_from (S menu_index)
                    (dict_set (str_of_int (Z.of_nat menu_index))
                              {| entry_name := language_name; rec_code := code;
                                 entry_voice_id := id info |}
                              display_map)
                    rest system_voices
      | None => menu_from menu_index display_map rest system_voices
      end
  end.

(** [display_map] as [main] has it when it prints the menu, or [None]
    when [main] has called [exit()]: with no desired language installed,
    the first voice whose code starts with [en] is the default, and
    without one the application stops. *)
Definition language_menu (system_voices : dict voice_info)
  : option (dict menu_entry) :=
  match menu_from 1 [] desired_languages system_voices with
  | [] =>
      match find (fun kv : string * voice_info =>
                    prefixb (chars "en") (chars (fst kv))) system_voices with
      | Some (_, eng_voice) =>
          Some [("1", {| entry_name := "Default English"; rec_code := "en-US";
                         entry_voice_id := id eng_voice |})]
      | None => None
      end
  | display_map => Some display_map
  end.

(** [display_map.get(choice, display_map["1"])]: the default is looked
    up first. *)
Definition selected_lang (display_map : dict menu_entry) (choice : string)
  : result menu_entry :=
  match dict_get "1" display_map with
  | None => Raise KeyError
  | Some first =>
      Ok match dict_get choice display_map with Some e => e | None => first end
  end.

(** Vocabulary for the properties: what is kept of a voice, and whether
    a voice declares the language [key] once its code is normalised. *)
Definition info_of (v : voice) : voice_info :=
  {| id := voice_id v; name := voice_name v |}.

Definition declares (key : string) (v : voice) : bool :=
  match lang_code v with
  | LangStr code => String.eqb (replace "_" "-" code) key
  | LangBytes _ => false
  end.

End Voices.

(* ================================================================== *)
(** ** The runtime model on small inputs *)
(* ================================================================== *)

Section Checks.
Import Text.

Example strip_both_ends :
  strip (" " ++ nl ++ "a b" ++ nl ++ "  ") = "a b".
Proof. reflexivity. Qed.

Example replace_left_to_right : replace "ab" "X" "aababab-ab" = "aXXX-X".
Proof. reflexivity. Qed.

Example clean_fenced_reply :
  App.clean ("```json" ++ nl ++ "{}" ++ nl ++ "```" ++ nl) = nl ++ "{}" ++ nl.
Proof. reflexivity. Qed.

Example title_words :
  title "light rain" = "Light Rain" /\ title "o'neil mcDONALD 3d" = "O'Neil Mcdonald 3D".
Proof. split; reflexivity. Qed.

Example truthy_values :
  map Py.truthy [PNone; PStr ""; PStr "0"; PInt 0; PFloat "0.0"; PFloat "1e-400";
                 PFloat "0.5"; PList []; PDict []; PList [PNone]]
  = [false; false; true; false; false; false; true; false; false; true].
Proof. reflexivity. Qed.

Example str_of_values :
  map Py.str [PStr "Agra"; PNone; PBool true; PInt (-5);
              PList [PStr "a'b"; PInt 3; PDict [("k", PNone)]]]
  = ["Agra"; "None"; "True"; "-5"; "[" ++ dq ++ "a'b" ++ dq ++ ", 3, {'k': None}]"].
Proof. reflexivity. Qed.

Example loads_nested :
  Json.loads ("  [1, -2.5e3, true, null, {" ++ dq ++ "a" ++ dq ++ ": [], "
              ++ dq ++ "a" ++ dq ++ ": {}}, " ++ dq ++ "x\né" ++ dq ++ "] ")
  = Ok (PList [PInt 1; PFloat "-2.5e3"; PBool true; PNone; PDict [("a", PDict [])];
               PStr ("x" ++ nl ++ "é")]).
Proof. reflexivity. Qed.

Example loads_refuses :
  map Json.loads [""; "[1,]"; "01"; "1."; "nul"; "{'a': 1}"; "[1] x"; "-"]
  = repeat (Raise JSONDecodeError) 8.
Proof. reflexivity. Qed.

Example dumps_records :
  Json.dumps (PList [PDict [("modal_price", PStr "1000"); ("n", PInt 2)]]) (Some 2)
  = "[" ++ nl ++ "  {" ++ nl
    ++ "    " ++ dq ++ "modal_price" ++ dq ++ ": " ++ dq ++ "1000" ++ dq ++ "," ++ nl
    ++ "    " ++ dq ++ "n" ++ dq ++ ": 2" ++ nl ++ "  }" ++ nl ++ "]".
Proof. reflexivity. Qed.

Example dumps_escapes :
  Json.dumps (PDict [("city", PStr "Pune é"); ("l", PList [PInt 1; PList []])]) None
  = "{" ++ dq ++ "city" ++ dq ++ ": " ++ dq ++ "Pune \u00e9" ++ dq ++ ", "
    ++ dq ++ "l" ++ dq ++ ": [1, []]}".
Proof. reflexivity. Qed.

Example bridge_holds_the_six_agents :
  App.bridge = App.agents.
Proof. reflexivity. Qed.

End Checks.

(* ================================================================== *)
(** ** Facts about text *)
(* ================================================================== *)

Section TextFacts.
Import Text.
Local Open Scope list_scope.

Lemma chars_text (l : list ascii) : chars (text l) = l.
Proof. apply list_ascii_of_string_of_list_ascii. Qed.

Lemma text_chars (s : string) : text (chars s) = s.
Proof. apply string_of_list_ascii_of_string. Qed.

Lemma chars_app (a b : string) : chars (a ++ b)%string = chars a ++ chars b.
Proof.
  induction a as [|c a IH]; simpl; [reflexivity|].
  unfold chars in *. simpl. now rewrite IH.
Qed.

Lemma prefixb_iff (p s : list ascii) :
  prefixb p s = true <-> exists r, s = p ++ r.
Proof.
  revert s. induction p as [|a p IH]; intros s; simpl.
  - split; [intros _; now exists s | reflexivity].
  - destruct s as [|b s].
    + split; [discriminate | intros [r Hr]; discriminate].
    + rewrite andb_true_iff, IH. split.
      * intros [Hab [r ->]]. apply Ascii.eqb_eq in Hab. subst. now exists r.
      * intros [r Hr]. injection Hr as -> ->. split.
        -- apply Ascii.eqb_refl.
        -- now exists r.
Qed.

Lemma containsb_iff (p s : list ascii) :
  containsb p s = true <-> exists a b, s = a ++ p ++ b.
Proof.
  induction s as [|c s IH].
  - simpl. rewrite orb_false_r, prefixb_iff. split.
    + intros [r Hr]. now exists [], r.
    + intros [a [b Hab]]. destruct a; [now exists b|discriminate].
  - cbn [containsb]. rewrite orb_true_iff, IH, prefixb_iff. split.
    + intros [[r Hr] | [a [b Hab]]].
      * now exists [], r.
      * exists (c :: a), b. now rewrite Hab.
    + intros [a [b Hab]]. destruct a as [|x a].
      * left. now exists b.
      * right. injection Hab as _ ->. now exists a, b.
Qed.

Lemma containsb_inside (p w1 s w2 : list ascii) :
  containsb p (w1 ++ s ++ w2) = false -> containsb p s = false.
Proof.
  intros H. destruct (containsb p s) eqn:E; [|reflexivity].
  apply containsb_iff in E. destruct E as [a [b ->]].
  assert (containsb p (w1 ++ (a ++ p ++ b) ++ w2) = true) as H'.
  { apply containsb_iff. exists (w1 ++ a), (b ++ w2).
    now rewrite <- !app_assoc. }
  congruence.
Qed.

Lemma containsb_longer (p q s : list ascii) :
  containsb p s = false -> containsb (p ++ q) s = false.
Proof.
  intros H. destruct (containsb (p ++ q) s) eqn:E; [|reflexivity].
  apply containsb_iff in E. destruct E as [a [b ->]].
  assert (containsb p (a ++ (p ++ q) ++ b) = true) as H'.
  { apply containsb_iff. exists a, (q ++ b). now rewrite <- !app_assoc. }
  congruence.
Qed.

(** Replacing a text that does not occur changes nothing. *)
Lemma replace_from_absent (old new s : list ascii) :
  containsb old s = false -> replace_from old new 0 s = s.
Proof.
  induction s as [|c s IH]; [reflexivity|].
  cbn [containsb replace_from]. intros H.
  apply orb_false_iff in H. destruct H as [H1 H2].
  rewrite H1. now rewrite IH.
Qed.

Lemma replace_absent (old new s : string) :
  str_in old s = false -> replace old new s = s.
Proof.
  intros H. unfold replace. rewrite replace_from_absent by exact H.
  apply text_chars.
Qed.

Lemma str_in_middle (a n b : string) : str_in n (a ++ n ++ b)%string = true.
Proof.
  unfold str_in. rewrite !chars_app. apply containsb_iff.
  now exists (chars a), (chars b).
Qed.

Lemma space2_padding c1 c2 :
  space2 c1 c2 = true -> padding c1 = true /\ padding c2 = true.
Proof.
  unfold space2, padding. intros H.
  apply andb_true_iff in H. destruct H as [H1 H2].
  apply Nat.eqb_eq in H1. apply orb_true_iff in H2.
  split; apply orb_true_iff; right; apply Nat.leb_le.
  - lia.
  - destruct H2 as [H2|H2]; apply Nat.eqb_eq in H2; lia.
Qed.

Lemma space3_padding c1 c2 c3 :
  space3 c1 c2 c3 = true ->
  padding c1 = true /\ padding c2 = true /\ padding c3 = true.
Proof.
  unfold space3, padding. cbv zeta. intros H.
  repeat (rewrite ?orb_true_iff, ?andb_true_iff, ?Nat.eqb_eq, ?Nat.leb_le in H).
  repeat split; apply orb_true_iff; right; apply Nat.leb_le; lia.
Qed.

Lemma lstrip_split_bounded (n : nat) : forall s,
  List.length s <= n ->
  exists w, s = w ++ lstrip s /\ Forall (fun c => padding c = true) w.
Proof.
  induction n as [|n IH]; intros s Hn.
  - destruct s; [|simpl in Hn; lia]. now exists [].
  - destruct s as [|c1 s1]; [now exists []|].
    cbn [lstrip]. destruct (space1 c1) eqn:E1.
    { destruct (IH s1) as [w [Hw Fw]]; [simpl in Hn; lia|].
      exists (c1 :: w). split; [simpl; now rewrite <- Hw|].
      constructor; [unfold padding; now rewrite E1|exact Fw]. }
    destruct s1 as [|c2 s2]; [now exists []|].
    destruct (space2 c1 c2) eqn:E2.
    { destruct (IH s2) as [w [Hw Fw]]; [simpl in Hn; lia|].
      apply space2_padding in E2. destruct E2 as [P1 P2].
      exists (c1 :: c2 :: w). split; [simpl; now rewrite <- Hw|].
      now repeat constructor. }
    destruct s2 as [|c3 s3]; [now exists []|].
    destruct (space3 c1 c2 c3) eqn:E3.
    { destruct (IH s3) as [w [Hw Fw]]; [simpl in Hn; lia|].
      apply space3_padding in E3. destruct E3 as [P1 [P2 P3]].
      exists (c1 :: c2 :: c3 :: w). split; [simpl; now rewrite <- Hw|].
      now repeat constructor. }
    now exists [].
Qed.

Lemma lstrip_rev_split_bounded (n : nat) : forall s,
  List.length s <= n ->
  exists w, s = w ++ lstrip_rev s /\ Forall (fun c => padding c = true) w.
Proof.
  induction n as [|n IH]; intros s Hn.
  - destruct s; [|simpl in Hn; lia]. now exists [].
  - destruct s as [|c1 s1]; [now exists []|].
    cbn [lstrip_rev]. destruct (space1 c1) eqn:E1.
    { destruct (IH s1) as [w [Hw Fw]]; [simpl in Hn; lia|].
      exists (c1 :: w). split; [simpl; now rewrite <- Hw|].
      constructor; [unfold padding; now rewrite E1|exact Fw]. }
    destruct s1 as [|c2 s2]; [now exists []|].
    destruct (space2 c2 c1) eqn:E2.
    { destruct (IH s2) as [w [Hw Fw]]; [simpl in Hn; lia|].
      apply space2_padding in E2. destruct E2 as [P1 P2].
      exists (c1 :: c2 :: w). split; [simpl; now rewrite <- Hw|].
      now repeat constructor. }
    destruct s2 as [|c3 s3]; [now exists []|].
    destruct (space3 c3 c2 c1) eqn:E3.
    { destruct (IH s3) as [w [Hw Fw]]; [simpl in Hn; lia|].
      apply space3_padding in E3. destruct E3 as [P1 [P2 P3]].
      exists (c1 :: c2 :: c3 :: w). split; [simpl; now rewrite <- Hw|].
      now repeat constructor. }
    now exists [].
Qed.

(** [strip] removes padding at both ends and nothing else. *)
Lemma strip_split (s : string) :
  exists w1 w2,
    chars s = w1 ++ chars (strip s) ++ w2
    /\ Forall (fun c => padding c = true) w1
    /\ Forall (fun c => padding c = true) w2.
Proof.
  destruct (lstrip_split_bounded _ (chars s) (le_n _)) as [w1 [H1 F1]].
  destruct (lstrip_rev_split_bounded _ (rev (lstrip (chars s))) (le_n _))
    as [w2 [H2 F2]].
  exists w1, (rev w2). unfold strip, rstrip. rewrite chars_text.
  split; [|split].
  - rewrite <- rev_app_distr, <- H2, rev_involutive. exact H1.
  - exact F1.
  - now apply Forall_rev.
Qed.

End TextFacts.

(* ================================================================== *)
(** ** Facts about the decoder *)
(* ================================================================== *)

Section DecoderFacts.
Import Text Json.
Local Open Scope list_scope.

Lemma run_app (s1 s2 : list ascii) (st : state) :
  run st (s1 ++ s2) =
  match run st s1 with Some st' => run st' s2 | None => None end.
Proof.
  revert st. induction s1 as [|c s1 IH]; intros st; simpl; [reflexivity|].
  destruct (step st c); [apply IH|reflexivity].
Qed.

(** A padding byte in front of the text is skipped or refused. *)
Lemma step_init_padding (c : ascii) :
  padding c = true -> step init c = Some init \/ step init c = None.
Proof.
  destruct c as [[] [] [] [] [] [] [] []]; intros H;
    solve [discriminate H | left; reflexivity | right; reflexivity].
Qed.

Lemma decode_cons (c : ascii) (s : list ascii) (v : pyval) :
  padding c = true -> decode (c :: s) = Some v -> decode s = Some v.
Proof.
  intros Hc. unfold decode. cbn [run].
  destruct (step_init_padding c Hc) as [-> | ->]; [auto|discriminate].
Qed.

Lemma padding_code (c : ascii) :
  padding c = true ->
  (9 <= code c <= 13) \/ (28 <= code c <= 32) \/ 128 <= code c.
Proof.
  unfold padding, space1. cbv zeta.
  rewrite !orb_true_iff, !andb_true_iff, !Nat.leb_le. tauto.
Qed.

(** Decides the comparisons of the code of [c] with constants from the
    bounds in the context. *)
Ltac settle_tests c :=
  repeat match goal with
    | |- context [Nat.eqb (code c) ?k] =>
        destruct (Nat.eqb_spec (code c) k); [exfalso; lia|]
    | |- context [Nat.leb ?k (code c)] =>
        destruct (Nat.leb_spec k (code c))
    | |- context [Nat.leb (code c) ?k] =>
        destruct (Nat.leb_spec (code c) k)
    | |- context [Nat.ltb (code c) ?k] =>
        destruct (Nat.ltb_spec (code c) k)
    end; cbn [andb orb negb]; try (exfalso; lia).

Lemma after_padding stk v c st' :
  padding c = true -> after stk v c = Some st' -> st' = (stk, MAfter v).
Proof.
  intros Hc. apply padding_code in Hc. unfold after.
  destruct (json_ws c); [now intros [= <-]|].
  settle_tests c. discriminate.
Qed.

Lemma start_padding stk c : padding c = true -> start stk c = None.
Proof.
  intros Hc. apply padding_code in Hc. unfold start, Py.is_digit. cbv zeta.
  settle_tests c; reflexivity.
Qed.

Lemma hex_val_padding c : padding c = true -> hex_val c = None.
Proof.
  destruct c as [[] [] [] [] [] [] [] []]; intros H;
    solve [discriminate H | reflexivity].
Qed.

Lemma finish_str stk acc hi e : finish (stk, MStr acc hi e) = None.
Proof. now destruct stk. Qed.

Lemma step_str_padding stk acc hi e c st' :
  padding c = true -> step_str stk acc hi e c = Some st' -> finish st' = None.
Proof.
  intros Hc. pose proof (padding_code c Hc) as Hb. unfold step_str.
  destruct e as [| |ds].
  - settle_tests c; try discriminate; intros [= <-]; apply finish_str.
  - unfold unescape. cbv zeta. settle_tests c; discriminate.
  - now rewrite (hex_val_padding c Hc).
Qed.

Lemma step_num_padding stk ns lit c st' :
  padding c = true -> step_num stk ns lit c = Some st' ->
  exists v, num_value ns lit = Some v /\ st' = (stk, MAfter v).
Proof.
  intros Hc. pose proof (padding_code c Hc) as Hb.
  unfold step_num, Py.is_digit. cbv zeta.
  destruct ns; settle_tests c; cbn [num_value]; try discriminate;
    intros Hstep; apply (after_padding _ _ _ _ Hc) in Hstep; eauto.
Qed.

Lemma keyword_char_not_padding k seen e :
  nth_error (keyword_text k) seen = Some e -> padding e = false.
Proof.
  destruct k; do 10 (try destruct seen as [|seen]); cbn;
    intros H; try discriminate H; injection H as <-; reflexivity.
Qed.

Lemma step_lit_padding stk k seen c :
  padding c = true -> step_lit stk k seen c = None.
Proof.
  intros Hc. unfold step_lit.
  destruct (nth_error (keyword_text k) seen) as [e|] eqn:E; [|reflexivity].
  destruct (Ascii.eqb_spec c e) as [->|]; [|reflexivity].
  apply keyword_char_not_padding in E. congruence.
Qed.

(** A padding byte never completes a value: if the text is complete
    after it, it was complete before. *)
Lemma step_padding (c : ascii) (st st' : state) (v : pyval) :
  padding c = true -> step st c = Some st' -> finish st' = Some v ->
  finish st = Some v.
Proof.
  intros Hc. destruct st as [stk m]. unfold step.
  destruct m as [| |first| |v0|acc hi e|ns lit|k seen].
  - rewrite (start_padding stk c Hc).
    destruct (json_ws c); [now intros [= <-]|discriminate].
  - rewrite (start_padding stk c Hc). pose proof (padding_code c Hc).
    destruct (json_ws c); [now intros [= <-]|].
    settle_tests c. discriminate.
  - pose proof (padding_code c Hc).
    destruct (json_ws c); [now intros [= <-]|].
    settle_tests c. discriminate.
  - pose proof (padding_code c Hc).
    destruct (json_ws c); [now intros [= <-]|].
    settle_tests c. discriminate.
  - intros H. now rewrite (after_padding _ _ _ _ Hc H).
  - intros H. now rewrite (step_str_padding _ _ _ _ _ _ Hc H).
  - intros H. destruct (step_num_padding _ _ _ _ _ Hc H) as [v' [Hv ->]].
    destruct stk; simpl; [congruence|discriminate].
  - now rewrite (step_lit_padding stk k seen c Hc).
Qed.

Lemma decode_snoc (s : list ascii) (c : ascii) (v : pyval) :
  padding c = true -> decode (s ++ [c]) = Some v -> decode s = Some v.
Proof.
  intros Hc. unfold decode. rewrite run_app.
  destruct (run init s) as [st|]; [|discriminate].
  cbn [run]. destruct (step st c) as [st'|] eqn:E; [|discriminate].
  intros H. exact (step_padding c st st' v Hc E H).
Qed.

(** Padding around a text that decodes can be removed. *)
Lemma decode_padded (w1 s w2 : list ascii) (v : pyval) :
  Forall (fun c => padding c = true) w1 ->
  Forall (fun c => padding c = true) w2 ->
  decode (w1 ++ s ++ w2) = Some v -> decode s = Some v.
Proof.
  intros F1 F2. induction F1 as [|c w1 Hc F1 IH].
  - simpl. revert F2. induction w2 as [|c w2 IH] using rev_ind; intros F2 H.
    + now rewrite app_nil_r in H.
    + apply Forall_app in F2. destruct F2 as [F2 Fc].
      apply IH; [exact F2|].
      rewrite app_assoc in H. apply decode_snoc in H; [exact H|].
      now inversion Fc.
  - intros H. simpl in H. apply decode_cons in H; auto.
Qed.

Lemma loads_ok (s : string) (v : pyval) :
  loads s = Ok v <-> decode (chars s) = Some v.
Proof.
  unfold loads. destruct (decode (chars s)); split; congruence.
Qed.

(** [strip] does not change what a text decodes to. *)
Lemma loads_strip (s : string) (v : pyval) :
  loads s = Ok v -> loads (strip s) = Ok v.
Proof.
  rewrite !loads_ok. destruct (strip_split s) as [w1 [w2 [E [F1 F2]]]].
  rewrite E. now apply decode_padded.
Qed.

(** A text without the fence is cleaned by [strip] alone. *)
Lemma clean_without_fence (s : string) :
  str_in App.fence s = false -> App.clean s = strip s.
Proof.
  intros H. unfold App.clean.
  assert (str_in App.fence (strip s) = false) as Hs.
  { destruct (strip_split s) as [w1 [w2 [E _]]].
    unfold str_in in *. rewrite E in H. now apply containsb_inside in H. }
  rewrite (replace_absent App.json_fence).
  - now apply replace_absent.
  - unfold str_in in *. change (chars App.json_fence)
      with (chars App.fence ++ chars "json").
    now apply containsb_longer.
Qed.

End DecoderFacts.

(* ================================================================== *)
(** ** Facts about runs *)
(* ================================================================== *)

Section RunFacts.

Lemma loads_raises (s : string) (e : exn) :
  Json.loads s = Raise e -> e = JSONDecodeError.
Proof. unfold Json.loads. destruct (Json.decode _); congruence. Qed.

(** One completion call, then the reply decoded or the fallback. *)
Lemma app_route_exec (cl : clients) (query lang : pyval) :
  exec (App.route_query_to_agent query lang) cl
  = (Ok match Json.loads
                (App.clean (gemini cl [] (App.router_prompt (Py.str query)) None))
        with Ok v => v | Raise _ => App.unclear end,
     [Completion (App.router_prompt (Py.str query)) None]).
Proof.
  unfold exec, App.route_query_to_agent, bind, call_gemini_api, try_except, lift, ret.
  cbn [app].
  destruct (Json.loads _) as [v|e] eqn:E; [reflexivity|].
  now rewrite (loads_raises _ _ E).
Qed.

Lemma voice_route_exec (cl : clients) (query lang : string) :
  exec (VoiceAssistant.route_query_to_agent query lang) cl
  = (Ok match Json.loads
                (VoiceAssistant.clean
                   (gemini cl [] (VoiceAssistant.router_prompt query) None))
        with Ok v => v | Raise _ => VoiceAssistant.unclear end,
     [Completion (VoiceAssistant.router_prompt query) None]).
Proof.
  unfold exec, VoiceAssistant.route_query_to_agent, bind, call_gemini_api,
    try_except, lift, ret.
  cbn [app].
  destruct (Json.loads _) as [v|e] eqn:E; [reflexivity|].
  now rewrite (loads_raises _ _ E).
Qed.

(** What [handle_request] adds to the log: nothing, or one weather
    lookup. *)
Lemma handle_request_log (task : string) (data : dict pyval)
      (cl : clients) (log : list event) :
  snd (WeatherAgent.handle_request task data cl log) = log
  \/ exists city,
      snd (WeatherAgent.handle_request task data cl log)
      = (log ++ [WeatherLookup city])%list.
Proof.
  unfold WeatherAgent.handle_request.
  destruct (String.eqb task "get_simple_forecast"); [|now left].
  set (city := match dict_get "city" data with Some v => v | None => PNone end).
  destruct (negb (Py.truthy city)); [now left|].
  right. exists city.
  unfold bind, get_weather_from_api, lift, ret.
  repeat match goal with
    | |- context [match ?r with Ok _ => _ | Raise _ => _ end] =>
        destruct r; try reflexivity
    | |- context [if ?b then _ else _] => destruct b; try reflexivity
    end.
Qed.


(** The text path of [ask] once the router has answered with a
    mapping: the label decides. *)
Lemma ask_text_path (cl : clients) (req : App.request)
      (data ri : dict pyval) :
  App.files_photo req = None ->
  App.json req = PDict data ->
  let query := match dict_get "query" data with Some q => q | None => PNone end in
  let language :=
    match dict_get "language" data with Some l => l | None => PStr "English" end in
  fst (exec (App.route_query_to_agent query language) cl) = Ok (PDict ri) ->
  forall label,
    dict_get "agent" ri = Some (PStr label) ->
    label <> "General" ->
    (dict_mem label App.agents = false \/ label = "CropAgent") ->
    exec (App.ask req) cl
    = (Ok (PStr App.not_sure),
       [Completion (App.router_prompt (Py.str query)) None]).
Proof.
  intros Hp Hj query language Hr label Hl Hg Hcase.
  unfold exec, App.ask. rewrite Hp, Hj.
  unfold bind at 1. cbn [lift Py.get]. unfold bind at 1. cbn [lift].
  unfold bind at 1.
  pose proof (app_route_exec cl query language) as E.
  rewrite E in Hr. cbn [fst] in Hr. injection Hr as Hr.
  unfold exec in E. fold query. fold language. rewrite E, Hr.
  unfold bind at 1. cbn [lift Py.get]. rewrite Hl.
  unfold bind at 1. cbn [lift].
  assert (App.is_str (PStr label) "General" = false) as Hng.
  { cbn [App.is_str]. now apply String.eqb_neq. }
  rewrite Hng. unfold bind at 1. cbn [lift App.in_agents].
  destruct Hcase as [Hmiss | ->].
  - rewrite Hmiss. reflexivity.
  - reflexivity.
Qed.

End RunFacts.

(* ================================================================== *)
(** ** The properties *)
(* ================================================================== *)

Import Scenario.

(* ------------------------------------------------------------------ *)

(** C1, as stated, fails: a reply that is valid JSON but lacks the key
    [parameters] is not replaced by the fallback; the router returns the
    mapping it decoded. *)
Lemma route_keeps_incomplete_mapping :
  let cl := fixed_clients reply_without_parameters PNone PNone in
  (exists v, Json.loads (App.clean reply_without_parameters) = Ok v
             /\ has_both_keys v = false)
  /\ fst (exec (App.route_query_to_agent (PStr "rain?") (PStr "English")) cl)
     <> Ok App.unclear
  /\ fst (exec (VoiceAssistant.route_query_to_agent "rain?" "English") cl)
     <> Ok VoiceAssistant.unclear.
Proof.
  cbv zeta. split; [|split].
  - eexists. split; [vm_compute; reflexivity|reflexivity].
  - rewrite app_route_exec. cbn [fst gemini fixed_clients].
    vm_compute. discriminate.
  - rewrite voice_route_exec. cbn [fst gemini fixed_clients].
    vm_compute. discriminate.
Qed.

(** C1, amended: for every reply of the completion client, if the cleaned
    reply is not valid JSON the router returns exactly the decision
    [{agent: "Unclear", parameters: {}}], and if it is valid JSON the
    router returns what it decodes to, whatever its shape; either way the
    completion client has been called once, so nothing is retried.  This
    holds for the router of the web front end and for the one of the
    voice front end. *)
Theorem route_falls_back_on_decode_error
        (cl : clients) (query lang : pyval) (vquery vlang : string) :
  let prompt := App.router_prompt (Py.str query) in
  let reply := gemini cl [] prompt None in
  let vprompt := VoiceAssistant.router_prompt vquery in
  let vreply := gemini cl [] vprompt None in
  (Json.loads (App.clean reply) = Raise JSONDecodeError ->
   exec (App.route_query_to_agent query lang) cl
   = (Ok App.unclear, [Completion prompt None]))
  /\ (forall v, Json.loads (App.clean reply) = Ok v ->
      exec (App.route_query_to_agent query lang) cl
      = (Ok v, [Completion prompt None]))
  /\ (Json.loads (VoiceAssistant.clean vreply) = Raise JSONDecodeError ->
      exec (VoiceAssistant.route_query_to_agent vquery vlang) cl
      = (Ok VoiceAssistant.unclear, [Completion vprompt None]))
  /\ (forall v, Json.loads (VoiceAssistant.clean vreply) = Ok v ->
      exec (VoiceAssistant.route_query_to_agent vquery vlang) cl
      = (Ok v, [Completion vprompt None])).
Proof.
  cbv zeta. rewrite app_route_exec, voice_route_exec.
  repeat split; [intros H | intros v H | intros H | intros v H]; now rewrite H.
Qed.

Lemma route_falls_back_witness :
  exec (App.route_query_to_agent (PStr "rain?") (PStr "English"))
       (fixed_clients reply_with_preamble PNone PNone)
  = (Ok App.unclear, [Completion (App.router_prompt "rain?") None]).
Proof.
  apply (proj1 (route_falls_back_on_decode_error
                  (fixed_clients reply_with_preamble PNone PNone)
                  (PStr "rain?") (PStr "English") "rain?" "English")).
  vm_compute. reflexivity.
Defined.

(* ------------------------------------------------------------------ *)

(** C2: for every registry, target name, task and data, [request]
    returns a string and does not raise when the target is not
    registered, and the string contains the target name; when the target
    is registered but its agent has no [handle_request], [request]
    returns the string saying that the agent cannot handle requests, and
    does not raise. *)
Theorem request_never_raises_on_bad_target
        (b : AgentBridge.t) (target task : string) (data : dict pyval)
        (cl : clients) (log : list event) :
  (dict_get target b = None ->
   fst (AgentBridge.request b target task data cl log)
   = Ok ("Error: Agent '" ++ target ++ "' not found.")
   /\ Text.str_in target ("Error: Agent '" ++ target ++ "' not found.") = true)
  /\ (forall a, dict_get target b = Some a ->
                AgentBridge.handle_request_of a = None ->
      fst (AgentBridge.request b target task data cl log)
      = Ok ("Error: Agent '" ++ target ++ "' cannot handle requests.")
      /\ Text.str_in target
           ("Error: Agent '" ++ target ++ "' cannot handle requests.") = true).
Proof.
  unfold AgentBridge.request, bind, bridge_routing, ret. split.
  - intros ->. split; [reflexivity|apply str_in_middle].
  - intros a -> ->. split; [reflexivity|apply str_in_middle].
Qed.

Lemma request_never_raises_witness :
  fst (AgentBridge.request App.bridge "IrrigationAgent" "get_simple_forecast" []
         (fixed_clients "" PNone PNone) [])
  = Ok "Error: Agent 'IrrigationAgent' not found."
  /\ fst (AgentBridge.request App.bridge "SoilAgent" "get_simple_forecast" []
            (fixed_clients "" PNone PNone) [])
     = Ok "Error: Agent 'SoilAgent' cannot handle requests.".
Proof.
  split.
  - apply (proj1 (request_never_raises_on_bad_target
                    App.bridge "IrrigationAgent" "get_simple_forecast" []
                    (fixed_clients "" PNone PNone) [])).
    reflexivity.
  - apply (proj2 (request_never_raises_on_bad_target
                    App.bridge "SoilAgent" "get_simple_forecast" []
                    (fixed_clients "" PNone PNone) []) Soil);
      reflexivity.
Defined.

(* ------------------------------------------------------------------ *)

(** C3: for each of [get_market_price], [find_schemes], [get_weather],
    [get_tips] and [analyze_soil], for every language, if a required
    parameter is empty or absent (any value that [not] takes for false)
    the operation returns its fixed English guidance string and leaves
    the log as it found it: no completion call, no data lookup, no bridge
    request. *)
Theorem guidance_without_any_call
        (v other lang : pyval) (b : AgentBridge.t)
        (cl : clients) (log : list event) :
  Py.truthy v = false ->
  MarketAgent.get_market_price b v other lang cl log
  = (Ok "To get market prices, please tell me the crop and the market name (mandi).",
     log)
  /\ MarketAgent.get_market_price b other v lang cl log
     = (Ok "To get market prices, please tell me the crop and the market name (mandi).",
        log)
  /\ SchemeAgent.find_schemes v lang cl log
     = (Ok "Please tell me what kind of scheme or subsidy you are looking for.", log)
  /\ WeatherAgent.get_weather v lang cl log
     = (Ok "Please tell me the city or town for the weather forecast.", log)
  /\ OrganicAgent.get_tips v lang cl log
     = (Ok "Please tell me what organic farming topic you are interested in.", log)
  /\ SoilAgent.analyze_soil v lang cl log
     = (Ok "Please describe your soil. For example, 'My soil is red and does not hold water well'.",
        log).
Proof.
  intros H.
  unfold MarketAgent.get_market_price, SchemeAgent.find_schemes,
    WeatherAgent.get_weather, OrganicAgent.get_tips, SoilAgent.analyze_soil.
  rewrite H. cbn [negb orb]. rewrite orb_true_r.
  repeat split.
Qed.

Lemma guidance_without_any_call_witness :
  WeatherAgent.get_weather PNone (PStr "Hindi") (fixed_clients "" PNone PNone) []
  = (Ok "Please tell me the city or town for the weather forecast.", [])
  /\ SchemeAgent.find_schemes (PStr "") (PStr "Hindi") (fixed_clients "" PNone PNone) []
     = (Ok "Please tell me what kind of scheme or subsidy you are looking for.", []).
Proof.
  split.
  - apply (guidance_without_any_call PNone PNone (PStr "Hindi") App.bridge
             (fixed_clients "" PNone PNone) []).
    reflexivity.
  - apply (guidance_without_any_call (PStr "") PNone (PStr "Hindi") App.bridge
             (fixed_clients "" PNone PNone) []).
    reflexivity.
Defined.

(* ------------------------------------------------------------------ *)

(** C4, as stated, fails: a well-formed decision whose text holds the
    fence marker inside a string loses it in the cleaning step, so the
    structure decoded is not the one the text denotes. *)
Lemma fence_inside_a_string_is_lost :
  exists v,
    Json.loads reply_with_fence_in_text = Ok v
    /\ is_route_decision v = true
    /\ Json.loads (App.clean reply_with_fence_in_text) <> Ok v.
Proof.
  eexists. split; [vm_compute; reflexivity|].
  split; [reflexivity|]. vm_compute. discriminate.
Qed.

(** C4, amended: for every JSON text that contains no occurrence of the
    fence marker (three backquotes), and so for every well-formed route
    decision text without it, the parsing step of the router (strip,
    remove the two markers, decode) yields the structure the text
    denotes. *)
Theorem parsing_step_keeps_structure (t : string) (v : pyval) :
  Json.loads t = Ok v ->
  Text.str_in App.fence t = false ->
  Json.loads (App.clean t) = Ok v.
Proof.
  intros Hv Hf. rewrite (clean_without_fence t Hf). now apply loads_strip.
Qed.

Lemma parsing_step_keeps_structure_witness :
  Json.loads (App.clean reply_weather_pune)
  = Ok (PDict [("agent", PStr "WeatherAgent");
               ("parameters", PDict [("city", PStr "Pune")])]).
Proof.
  apply (parsing_step_keeps_structure reply_weather_pune); vm_compute; reflexivity.
Defined.

(* ------------------------------------------------------------------ *)

(** C5: [handle_request("get_simple_forecast", {"city": "Pune"})], when
    the weather client answers with the description "light rain" and the
    temperature 24, returns exactly
    "Forecast for Pune: Light Rain with temperatures around 24°C.". *)
Theorem forecast_for_pune (cl : clients) (log : list event) :
  weather_api cl log (PStr "Pune") = weather_of "light rain" 24 ->
  fst (WeatherAgent.handle_request "get_simple_forecast" [("city", PStr "Pune")]
         cl log)
  = Ok "Forecast for Pune: Light Rain with temperatures around 24°C.".
Proof.
  intros H. unfold WeatherAgent.handle_request. cbn -[Py.contains].
  unfold bind, get_weather_from_api. rewrite H. reflexivity.
Qed.

Lemma forecast_for_pune_witness :
  fst (WeatherAgent.handle_request "get_simple_forecast" [("city", PStr "Pune")]
         (fixed_clients "" (weather_of "light rain" 24) PNone) [])
  = Ok "Forecast for Pune: Light Rain with temperatures around 24°C.".
Proof.
  apply (forecast_for_pune (fixed_clients "" (weather_of "light rain" 24) PNone) []).
  reflexivity.
Defined.

(* ------------------------------------------------------------------ *)

(** C6: for [get_market_price("Potato", "Agra", "English")], when the
    market client answers with the record of prices 800, 1200 and 1000
    and the bridge request to WeatherAgent returns the forecast for Agra,
    the prompt sent to the completion client contains the modal price
    "1000" and the forecast string. *)
Theorem market_prompt_has_price_and_forecast (cl : clients) (b : AgentBridge.t) :
  market_api cl [] (PStr "Potato") (PStr "Agra") = potato_records ->
  (forall log,
      fst (AgentBridge.request b "WeatherAgent" "get_simple_forecast"
                               [("city", PStr "Agra")] cl log)
      = Ok agra_forecast) ->
  exists prompt log,
    snd (exec (MarketAgent.get_market_price b (PStr "Potato") (PStr "Agra")
                                            (PStr "English")) cl)
    = (log ++ [Completion prompt None])%list
    /\ Text.str_in "1000" prompt = true
    /\ Text.str_in agra_forecast prompt = true.
Proof.
  intros Hm Hb.
  unfold exec, MarketAgent.get_market_price. cbn [Py.truthy String.eqb negb orb].
  unfold bind at 1. unfold get_market_data_from_gov_api at 1. rewrite Hm.
  cbn [app]. unfold bind at 1. cbn [lift potato_records Py.contains dict_mem dict_get String.eqb Ascii.eqb Bool.eqb].
  unfold bind at 1.
  specialize (Hb [MarketLookup (PStr "Potato") (PStr "Agra")]).
  destruct (AgentBridge.request b "WeatherAgent" "get_simple_forecast"
              [("city", PStr "Agra")] cl
              [MarketLookup (PStr "Potato") (PStr "Agra")]) as [r log'].
  cbn [fst] in Hb. subst r.
  unfold bind, lift, call_gemini_api. cbn [Py.getitem dict_get String.eqb Ascii.eqb Bool.eqb snd].
  eexists. exists log'. split; [reflexivity|].
  split; vm_compute; reflexivity.
Qed.

Lemma market_prompt_witness :
  exists prompt log,
    snd (exec (MarketAgent.get_market_price App.bridge (PStr "Potato") (PStr "Agra")
                                            (PStr "English"))
              (fixed_clients "Sell today." (weather_of "clear sky" 28) potato_records))
    = (log ++ [Completion prompt None])%list
    /\ Text.str_in "1000" prompt = true
    /\ Text.str_in agra_forecast prompt = true.
Proof.
  apply (market_prompt_has_price_and_forecast
           (fixed_clients "Sell today." (weather_of "clear sky" 28) potato_records)
           App.bridge).
  - reflexivity.
  - intros log. reflexivity.
Defined.

(* ------------------------------------------------------------------ *)




(* ------------------------------------------------------------------ *)

(** C8: in the text path of [ask], for every label string that is not a
    key of the agent table and is not "General", the table lookup is not
    attempted beyond the membership test, nothing is raised, no agent is
    called, and the response is the generic "not sure how to help"
    sentence. *)
Theorem unknown_label_gets_generic_answer
        (cl : clients) (req : App.request) (data ri : dict pyval) (label : string) :
  App.files_photo req = None ->
  App.json req = PDict data ->
  let query := match dict_get "query" data with Some q => q | None => PNone end in
  let language :=
    match dict_get "language" data with Some l => l | None => PStr "English" end in
  fst (exec (App.route_query_to_agent query language) cl) = Ok (PDict ri) ->
  dict_get "agent" ri = Some (PStr label) ->
  dict_mem label App.agents = false ->
  label <> "General" ->
  exec (App.ask req) cl
  = (Ok (PStr "I'm sorry, I'm not sure how to help with that. Could you please rephrase your question?"),
     [Completion (App.router_prompt (Py.str query)) None]).
Proof.
  intros Hp Hj query language Hr Hl Hmiss Hg.
  apply (ask_text_path cl req data ri Hp Hj Hr label Hl Hg). now left.
Qed.

Lemma unknown_label_witness :
  exec (App.ask (text_request "drip irrigation"))
       (fixed_clients reply_unknown_label PNone PNone)
  = (Ok (PStr "I'm sorry, I'm not sure how to help with that. Could you please rephrase your question?"),
     [Completion (App.router_prompt "drip irrigation") None]).
Proof.
  apply (unknown_label_gets_generic_answer
           (fixed_clients reply_unknown_label PNone PNone)
           (text_request "drip irrigation")
           [("query", PStr "drip irrigation"); ("language", PStr "English")]
           [("agent", PStr "IrrigationAgent"); ("parameters", PDict [])]
           "IrrigationAgent").
  - reflexivity.
  - reflexivity.
  - vm_compute. reflexivity.
  - reflexivity.
  - reflexivity.
  - discriminate.
Defined.

(* ------------------------------------------------------------------ *)

(** C9: for every task and data given to [handle_request]: if the task is
    "get_simple_forecast" and the data has no non-empty [city], it
    returns "No city provided." and calls no client; if the task is
    anything else, it returns "Unknown task." and calls no client; and in
    every case what it adds to the log holds at most one data lookup and
    no completion call. *)
Theorem handle_request_is_bounded
        (task : string) (data : dict pyval) (cl : clients) (log : list event) :
  (task = "get_simple_forecast" ->
   Py.truthy (match dict_get "city" data with Some v => v | None => PNone end) = false ->
   WeatherAgent.handle_request task data cl log = (Ok "No city provided.", log))
  /\ (task <> "get_simple_forecast" ->
      WeatherAgent.handle_request task data cl log = (Ok "Unknown task.", log))
  /\ (exists added,
        snd (WeatherAgent.handle_request task data cl log) = (log ++ added)%list
        /\ count is_data_lookup added <= 1
        /\ count is_completion added = 0).
Proof.
  split; [|split].
  - intros -> H. unfold WeatherAgent.handle_request. cbn [String.eqb Ascii.eqb Bool.eqb].
    now rewrite H.
  - intros H. unfold WeatherAgent.handle_request.
    apply String.eqb_neq in H. now rewrite H.
  - destruct (handle_request_log task data cl log) as [H | [city H]]; rewrite H.
    + exists []. rewrite app_nil_r. cbn. auto.
    + exists [WeatherLookup city]. cbn. auto.
Qed.

Lemma handle_request_is_bounded_witness :
  WeatherAgent.handle_request "get_simple_forecast" [("city", PStr "")]
    (fixed_clients "" PNone PNone) []
  = (Ok "No city provided.", [])
  /\ WeatherAgent.handle_request "get_detailed_forecast" [("city", PStr "Pune")]
       (fixed_clients "" PNone PNone) []
     = (Ok "Unknown task.", []).
Proof.
  split.
  - apply (proj1 (handle_request_is_bounded "get_simple_forecast" [("city", PStr "")]
                    (fixed_clients "" PNone PNone) []));
      reflexivity.
  - apply (proj1 (proj2 (handle_request_is_bounded "get_detailed_forecast"
                           [("city", PStr "Pune")]
                           (fixed_clients "" PNone PNone) []))).
    discriminate.
Defined.

(* ------------------------------------------------------------------ *)

(** C10: in the text path of [ask], a decision whose label is
    "CropAgent" is found in the agent table but matches no branch of the
    inner chain: no agent method is called (the log holds the router's
    completion call and nothing else) and the response is the generic
    "not sure how to help" sentence. *)
Theorem crop_label_in_text_path_gets_generic_answer
        (cl : clients) (req : App.request) (data ri : dict pyval) :
  App.files_photo req = None ->
  App.json req = PDict data ->
  let query := match dict_get "query" data with Some q => q | None => PNone end in
  let language :=
    match dict_get "language" data with Some l => l | None => PStr "English" end in
  fst (exec (App.route_query_to_agent query language) cl) = Ok (PDict ri) ->
  dict_get "agent" ri = Some (PStr "CropAgent") ->
  dict_mem "CropAgent" App.agents = true
  /\ exec (App.ask req) cl
     = (Ok (PStr "I'm sorry, I'm not sure how to help with that. Could you please rephrase your question?"),
        [Completion (App.router_prompt (Py.str query)) None]).
Proof.
  intros Hp Hj query language Hr Hl. split; [reflexivity|].
  apply (ask_text_path cl req data ri Hp Hj Hr "CropAgent" Hl);
    [discriminate | now right].
Qed.

Lemma crop_label_witness :
  dict_mem "CropAgent" App.agents = true
  /\ exec (App.ask (text_request "my tomato leaves have spots"))
          (fixed_clients reply_crop PNone PNone)
     = (Ok (PStr "I'm sorry, I'm not sure how to help with that. Could you please rephrase your question?"),
        [Completion (App.router_prompt "my tomato leaves have spots") None]).
Proof.
  apply (crop_label_in_text_path_gets_generic_answer
           (fixed_clients reply_crop PNone PNone)
           (text_request "my tomato leaves have spots")
           [("query", PStr "my tomato leaves have spots"); ("language", PStr "English")]
           [("agent", PStr "CropAgent"); ("parameters", PDict [])]).
  - reflexivity.
  - reflexivity.
  - vm_compute. reflexivity.
  - reflexivity.
Defined.

(* ================================================================== *)
(** ** Further properties of the bridge, the agents and the front end *)
(* ================================================================== *)

Section LogBounds.
Local Open Scope list_scope.

Lemma count_app (p : event -> bool) (l1 l2 : list event) :
  count p (l1 ++ l2) = count p l1 + count p l2.
Proof. unfold count. now rewrite filter_app, length_app. Qed.

Lemma adds_ret {A} (a : A) : adds_at_most 0 0 (ret a).
Proof. intros cl log. exists []. rewrite app_nil_r. now cbn. Qed.

Lemma adds_raise {A} (e : exn) : adds_at_most 0 0 (@raise A e).
Proof. intros cl log. exists []. rewrite app_nil_r. now cbn. Qed.

Lemma adds_lift {A} (r : result A) : adds_at_most 0 0 (lift r).
Proof. intros cl log. exists []. rewrite app_nil_r. now cbn. Qed.

Lemma adds_weaken {A} (nc nd nc' nd' : nat) (m : M A) :
  adds_at_most nc nd m -> nc <= nc' -> nd <= nd' -> adds_at_most nc' nd' m.
Proof.
  intros H Hc Hd cl log. destruct (H cl log) as [added [E [B1 B2]]].
  exists added. repeat split; [exact E|lia|lia].
Qed.

Lemma adds_bind {A B} (nc nd nc' nd' : nat) (m : M A) (k : A -> M B) :
  adds_at_most nc nd m -> (forall a, adds_at_most nc' nd' (k a)) ->
  adds_at_most (nc + nc') (nd + nd') (bind m k).
Proof.
  intros Hm Hk cl log. unfold bind.
  destruct (Hm cl log) as [added [E [B1 B2]]].
  destruct (m cl log) as [[a|e] log']; cbn [snd] in E; subst log'.
  - destruct (Hk a cl (log ++ added)) as [added' [E' [B1' B2']]].
    exists (added ++ added'). rewrite E', app_assoc, !count_app.
    repeat split; lia.
  - exists added. cbn [snd]. repeat split; lia.
Qed.

Lemma adds_try_except {A} (nc nd nc' nd' : nat) (m h : M A) (handles : exn -> bool) :
  adds_at_most nc nd m -> adds_at_most nc' nd' h ->
  adds_at_most (nc + nc') (nd + nd') (try_except m handles h).
Proof.
  intros Hm Hh cl log. unfold try_except.
  destruct (Hm cl log) as [added [E [B1 B2]]].
  destruct (m cl log) as [[a|e] log']; cbn [snd] in E; subst log'.
  - exists added. cbn [snd]. repeat split; lia.
  - destruct (handles e).
    + destruct (Hh cl (log ++ added)) as [added' [E' [B1' B2']]].
      exists (added ++ added'). rewrite E', app_assoc, !count_app.
      repeat split; lia.
    + exists added. cbn [snd]. repeat split; lia.
Qed.

Lemma adds_completion (prompt : string) (image : option string) :
  adds_at_most 1 0 (call_gemini_api prompt image).
Proof. intros cl log. exists [Completion prompt image]. cbn. auto. Qed.

Lemma adds_weather (city : pyval) : adds_at_most 0 1 (get_weather_from_api city).
Proof. intros cl log. exists [WeatherLookup city]. cbn. auto. Qed.

Lemma adds_market (commodity market : pyval) :
  adds_at_most 0 1 (get_market_data_from_gov_api commodity market).
Proof. intros cl log. exists [MarketLookup commodity market]. cbn. auto. Qed.

Lemma adds_encoding (path : string) : adds_at_most 0 0 (encode_image_to_base64 path).
Proof. intros cl log. exists [ImageEncoding path]. cbn. auto. Qed.

Lemma adds_photo_save (path : string) : adds_at_most 0 0 (photo_save path).
Proof. intros cl log. exists [PhotoSaved path]. cbn. auto. Qed.

Lemma adds_routing (target task : string) (data : dict pyval) :
  adds_at_most 0 0 (bridge_routing target task data).
Proof. intros cl log. exists [BridgeRequest target task data]. cbn. auto. Qed.

(** A step that adds nothing leaves the whole budget to what follows. *)
Lemma adds_after {A B} (nc nd : nat) (m : M A) (k : A -> M B) :
  adds_at_most 0 0 m -> (forall a, adds_at_most nc nd (k a)) ->
  adds_at_most nc nd (bind m k).
Proof. intros Hm Hk. exact (adds_bind 0 0 nc nd m k Hm Hk). Qed.

Lemma adds_then {A B} (nc nd nc' nd' c d : nat) (m : M A) (k : A -> M B) :
  adds_at_most nc nd m -> (forall a, adds_at_most nc' nd' (k a)) ->
  nc + nc' <= c -> nd + nd' <= d ->
  adds_at_most c d (bind m k).
Proof.
  intros Hm Hk Hc Hd.
  exact (adds_weaken _ _ _ _ _ (adds_bind nc nd nc' nd' m k Hm Hk) Hc Hd).
Qed.

(** Steps that touch no client, one after the other. *)
Ltac quiet_steps :=
  repeat first
    [ apply adds_ret | apply adds_raise | apply adds_lift
    | apply adds_after; [apply adds_lift|intros ?]
    | match goal with
      | |- adds_at_most _ _ (if ?b then _ else _) => destruct b
      | |- adds_at_most _ _ (match ?x with _ => _ end) => destruct x
      end
    | (eapply adds_weaken; [apply adds_ret|lia|lia])
    | (eapply adds_weaken; [apply adds_completion|lia|lia]) ].

Lemma handle_request_adds (task : string) (data : dict pyval) :
  adds_at_most 0 1 (WeatherAgent.handle_request task data).
Proof.
  unfold WeatherAgent.handle_request.
  destruct (String.eqb task "get_simple_forecast"); [|quiet_steps].
  destruct (negb _); [quiet_steps|].
  apply (adds_then 0 1 0 0); [apply adds_weather| |lia|lia].
  intros weather_data. quiet_steps.
Qed.

Lemma request_adds (b : AgentBridge.t) (target task : string) (data : dict pyval) :
  adds_at_most 0 1 (AgentBridge.request b target task data).
Proof.
  unfold AgentBridge.request.
  apply adds_after; [apply adds_routing|intros _].
  destruct (dict_get target b) as [a|]; [|quiet_steps].
  destruct (AgentBridge.handle_request_of a) as [h|] eqn:E; [|quiet_steps].
  destruct a; try discriminate E. injection E as <-. apply handle_request_adds.
Qed.

Lemma get_market_price_adds (b : AgentBridge.t) (commodity market lang : pyval) :
  adds_at_most 1 2 (MarketAgent.get_market_price b commodity market lang).
Proof.
  unfold MarketAgent.get_market_price.
  destruct (_ || _); [quiet_steps|].
  apply (adds_then 0 1 1 1); [apply adds_market| |lia|lia].
  intros market_data. apply adds_after; [apply adds_lift|intros has_error].
  destruct has_error; [quiet_steps|].
  apply (adds_then 0 1 1 0); [apply request_adds| |lia|lia].
  intros report. quiet_steps.
Qed.

Lemma get_weather_adds (city lang : pyval) :
  adds_at_most 1 1 (WeatherAgent.get_weather city lang).
Proof.
  unfold WeatherAgent.get_weather.
  destruct (negb _); [quiet_steps|].
  apply (adds_then 0 1 1 0); [apply adds_weather| |lia|lia].
  intros weather_data. quiet_steps.
Qed.

Lemma find_schemes_adds (query lang : pyval) :
  adds_at_most 1 0 (SchemeAgent.find_schemes query lang).
Proof. unfold SchemeAgent.find_schemes. quiet_steps. Qed.

Lemma get_tips_adds (topic lang : pyval) :
  adds_at_most 1 0 (OrganicAgent.get_tips topic lang).
Proof. unfold OrganicAgent.get_tips. quiet_steps. Qed.

Lemma analyze_soil_adds (query lang : pyval) :
  adds_at_most 1 0 (SoilAgent.analyze_soil query lang).
Proof. unfold SoilAgent.analyze_soil. quiet_steps. Qed.

Lemma diagnose_adds (image_path : string) (lang : pyval) :
  adds_at_most 1 0 (CropAgent.diagnose image_path lang).
Proof.
  unfold CropAgent.diagnose.
  apply adds_after; [apply adds_encoding|intros image]. quiet_steps.
Qed.

Lemma route_adds (query lang : pyval) :
  adds_at_most 1 0 (App.route_query_to_agent query lang).
Proof.
  unfold App.route_query_to_agent.
  apply (adds_then 1 0 0 0); [apply adds_completion| |lia|lia].
  intros reply.
  exact (adds_try_except 0 0 0 0 _ _ _ (adds_lift _) (adds_ret _)).
Qed.

Lemma dispatch_adds (agent_name : pyval) (target : agent) (params language : pyval) :
  adds_at_most 1 2 (App.dispatch agent_name target params language).
Proof.
  unfold App.dispatch.
  repeat match goal with
    | |- adds_at_most _ _ (if ?b then _ else _) => destruct b
    end;
    repeat (apply adds_after; [apply adds_lift|intros ?]);
    try (eapply adds_weaken; [apply adds_ret|lia|lia]).
  - apply (adds_then 1 2 0 0); [|intros; apply adds_ret|lia|lia].
    unfold App.call_get_market_price.
    destruct target; try (eapply adds_weaken; [apply adds_raise|lia|lia]).
    apply get_market_price_adds.
  - apply (adds_then 1 0 0 0); [|intros; apply adds_ret|lia|lia].
    unfold App.call_find_schemes.
    destruct target; try (eapply adds_weaken; [apply adds_raise|lia|lia]).
    apply find_schemes_adds.
  - apply (adds_then 1 1 0 0); [|intros; apply adds_ret|lia|lia].
    unfold App.call_get_weather.
    destruct target; try (eapply adds_weaken; [apply adds_raise|lia|lia]).
    apply get_weather_adds.
  - apply (adds_then 1 0 0 0); [|intros; apply adds_ret|lia|lia].
    unfold App.call_get_tips.
    destruct target; try (eapply adds_weaken; [apply adds_raise|lia|lia]).
    apply get_tips_adds.
  - apply (adds_then 1 0 0 0); [|intros; apply adds_ret|lia|lia].
    unfold App.call_analyze_soil.
    destruct target; try (eapply adds_weaken; [apply adds_raise|lia|lia]).
    apply analyze_soil_adds.
Qed.

End LogBounds.

Section PromptFacts.
Import Text.

Lemma append_empty_r (s : string) : (s ++ "")%string = s.
Proof. induction s as [|c s IH]; simpl; [reflexivity|now rewrite IH]. Qed.

Lemma concat_cons (x : string) (l : list string) :
  String.concat "" (x :: l) = (x ++ String.concat "" l)%string.
Proof. destruct l; simpl; [now rewrite append_empty_r|reflexivity]. Qed.

Lemma str_in_append_l (n a b : string) :
  str_in n a = true -> str_in n (a ++ b)%string = true.
Proof.
  unfold str_in. rewrite chars_app, !containsb_iff.
  intros [u [v ->]]. exists u, (v ++ chars b)%list. now rewrite <- !app_assoc.
Qed.

Lemma str_in_append_r (n a b : string) :
  str_in n b = true -> str_in n (a ++ b)%string = true.
Proof.
  unfold str_in. rewrite chars_app, !containsb_iff.
  intros [u [v ->]]. exists (chars a ++ u)%list, v. now rewrite <- !app_assoc.
Qed.

Lemma str_in_self (n : string) : str_in n n = true.
Proof.
  unfold str_in. apply containsb_iff. exists [], []. now rewrite app_nil_r.
Qed.

(** Every piece of a concatenation occurs in it. *)
Lemma str_in_concat (x : string) (l : list string) :
  In x l -> str_in x (String.concat "" l) = true.
Proof.
  induction l as [|y l IH]; [intros []|].
  rewrite concat_cons. intros [-> | H].
  - apply str_in_append_l, str_in_self.
  - apply str_in_append_r, IH, H.
Qed.

Lemma append_assoc (a b c : string) : ((a ++ b) ++ c)%string = (a ++ b ++ c)%string.
Proof. induction a as [|x a IH]; simpl; [reflexivity|now rewrite IH]. Qed.

Lemma concat_app (l1 l2 : list string) :
  String.concat "" (l1 ++ l2)
  = (String.concat "" l1 ++ String.concat "" l2)%string.
Proof.
  induction l1 as [|x l1 IH]; [reflexivity|].
  change ((x :: l1) ++ l2)%list with (x :: (l1 ++ l2))%list.
  now rewrite !concat_cons, IH, append_assoc.
Qed.

(** The prompt of the router around the query. *)
Lemma router_prompt_split (query : string) :
  exists before after,
    App.router_prompt query = (before ++ (dq ++ query ++ dq) ++ after)%string
    /\ forall label, In label (map fst App.agents) \/ label = "General" ->
                     str_in (dq ++ label ++ dq) after = true.
Proof.
  unfold App.router_prompt.
  match goal with
  | |- context [String.concat "" ?L] =>
      change L with (firstn 5 L ++ (dq :: query :: dq :: skipn 8 L))%list
  end.
  cbn [firstn skipn]. rewrite concat_app.
  match goal with
  | |- context [(String.concat "" ?L1
                 ++ String.concat "" (dq :: query :: dq :: ?L2))%string] =>
      exists (String.concat "" L1), (String.concat "" L2)
  end.
  split.
  - f_equal. rewrite !append_assoc. reflexivity.
  - cbn [App.agents map fst In].
    intros label [[<-|[<-|[<-|[<-|[<-|[<-|[]]]]]]] | ->]; vm_compute; reflexivity.
Qed.

End PromptFacts.

(* ------------------------------------------------------------------ *)

(** X1: whatever the request and whatever the clients answer, [ask] only
    extends the log, with at most two completion calls (the router's and
    one agent's) and at most two data lookups (the market lookup and the
    weather lookup of the bridge handler). *)
Theorem ask_call_budget (req : App.request) : adds_at_most 2 2 (App.ask req).
Proof.
  unfold App.ask. destruct (App.files_photo req) as [photo|].
  - apply adds_after; [apply adds_photo_save|intros _].
    apply adds_after; [apply adds_lift|intros target].
    apply (adds_then 1 0 0 0); [|intros; apply adds_ret|lia|lia].
    unfold App.call_diagnose.
    destruct target; try (eapply adds_weaken; [apply adds_raise|lia|lia]).
    apply diagnose_adds.
  - apply adds_after; [apply adds_lift|intros query].
    apply adds_after; [apply adds_lift|intros language].
    apply (adds_then 1 0 1 2); [apply route_adds| |lia|lia].
    intros routing_info.
    apply adds_after; [apply adds_lift|intros agent_name].
    apply adds_after; [apply adds_lift|intros params].
    destruct (App.is_str agent_name "General").
    { eapply adds_weaken; [apply adds_lift|lia|lia]. }
    apply adds_after; [apply adds_lift|intros known].
    destruct known; [|eapply adds_weaken; [apply adds_ret|lia|lia]].
    apply adds_after; [apply adds_lift|intros target].
    exact (adds_try_except 1 2 0 0 _ _ _ (dispatch_adds _ _ _ _) (adds_ret _)).
Qed.

(** X2: a request through the bridge, to any target of any registry,
    with any task and data, calls the completion client never and a data
    client at most once. *)
Theorem bridge_request_call_budget
        (b : AgentBridge.t) (target task : string) (data : dict pyval) :
  adds_at_most 0 1 (AgentBridge.request b target task data).
Proof. apply request_adds. Qed.

(** X3: given a non-empty query or topic, [find_schemes], [get_tips] and
    [analyze_soil] each make exactly one completion call, without image
    and without any data lookup or bridge request; the prompt contains
    the query and the language as given, and the reply of the completion
    client is returned unchanged. *)
Theorem text_agents_forward_query_and_language
        (query lang : pyval) (cl : clients) (log : list event) :
  Py.truthy query = true ->
  (exists prompt,
      SchemeAgent.find_schemes query lang cl log
      = (Ok (gemini cl log prompt None), (log ++ [Completion prompt None])%list)
      /\ Text.str_in (Py.str query) prompt = true
      /\ Text.str_in (Py.str lang) prompt = true)
  /\ (exists prompt,
         OrganicAgent.get_tips query lang cl log
         = (Ok (gemini cl log prompt None), (log ++ [Completion prompt None])%list)
         /\ Text.str_in (Py.str query) prompt = true
         /\ Text.str_in (Py.str lang) prompt = true)
  /\ (exists prompt,
         SoilAgent.analyze_soil query lang cl log
         = (Ok (gemini cl log prompt None), (log ++ [Completion prompt None])%list)
         /\ Text.str_in (Py.str query) prompt = true
         /\ Text.str_in (Py.str lang) prompt = true).
Proof.
  intros H.
  unfold SchemeAgent.find_schemes, OrganicAgent.get_tips, SoilAgent.analyze_soil.
  rewrite H. cbn [negb]. unfold call_gemini_api.
  repeat split; eexists; (split; [reflexivity|]);
    split; apply str_in_concat; cbn [In]; tauto.
Qed.

Lemma text_agents_witness :
  exists prompt,
    SchemeAgent.find_schemes (PStr "PM-KISAN") (PStr "Hindi")
                             (fixed_clients "Apply online." PNone PNone) []
    = (Ok "Apply online.", [Completion prompt None])
    /\ Text.str_in "PM-KISAN" prompt = true
    /\ Text.str_in "Hindi" prompt = true.
Proof.
  apply (proj1 (text_agents_forward_query_and_language
                  (PStr "PM-KISAN") (PStr "Hindi")
                  (fixed_clients "Apply online." PNone PNone) [] eq_refl)).
Defined.

Section AskRuns.

(** The text path of [ask] after the router has answered: the rest runs
    on the router's decision, from a log that holds the router's call. *)
Lemma ask_after_route (cl : clients) (req : App.request) (data : dict pyval)
      (routing_info : pyval) :
  App.files_photo req = None ->
  App.json req = PDict data ->
  let query := match dict_get "query" data with Some q => q | None => PNone end in
  let language :=
    match dict_get "language" data with Some l => l | None => PStr "English" end in
  fst (exec (App.route_query_to_agent query language) cl) = Ok routing_info ->
  exec (App.ask req) cl
  = (agent_name <- lift (Py.get routing_info "agent" PNone) ;;
     params <- lift (Py.get routing_info "parameters" (PDict [])) ;;
     if App.is_str agent_name "General"
     then lift (Py.get params "response" (PStr "You're welcome!"))
     else
       known <- lift (App.in_agents agent_name) ;;
       if known then
         target_agent <- lift (match agent_name with
                               | PStr s => match dict_get s App.agents with
                                           | Some a => Ok a
                                           | None => Raise KeyError
                                           end
                               | _ => Raise KeyError
                               end) ;;
         try_except (App.dispatch agent_name target_agent params language)
                    (fun _ => true)
                    (ret (PStr "Sorry, something went wrong."))
       else ret (PStr App.not_sure))
      cl [Completion (App.router_prompt (Py.str query)) None].
Proof.
  intros Hp Hj query language Hr.
  unfold exec, App.ask. rewrite Hp, Hj.
  unfold bind at 1. cbn [lift Py.get]. unfold bind at 1. cbn [lift].
  unfold bind at 1.
  pose proof (app_route_exec cl query language) as E.
  rewrite E in Hr. cbn [fst] in Hr. injection Hr as Hr.
  unfold exec in E. fold query. fold language. rewrite E, Hr. reflexivity.
Qed.

(** The labels of the agent table, and what [dispatch] needs of them. *)
Lemma in_agents_label (label : string) (a : agent) :
  dict_get label App.agents = Some a -> App.in_agents (PStr label) = Ok true.
Proof. intros H. cbn [App.in_agents]. unfold dict_mem. now rewrite H. Qed.

(** A reply that does not decode ends in the generic answer. *)
Lemma unreadable_reply_run (cl : clients) (req : App.request) (data : dict pyval) :
  App.files_photo req = None ->
  App.json req = PDict data ->
  let query := match dict_get "query" data with Some q => q | None => PNone end in
  let prompt := App.router_prompt (Py.str query) in
  Json.loads (App.clean (gemini cl [] prompt None)) = Raise JSONDecodeError ->
  exec (App.ask req) cl = (Ok (PStr App.not_sure), [Completion prompt None]).
Proof.
  intros Hp Hj query prompt Hr.
  apply (ask_text_path cl req data
           [("agent", PStr "Unclear"); ("parameters", PDict [])] Hp Hj)
    with (label := "Unclear").
  - rewrite app_route_exec. cbn [fst]. fold query. fold prompt. now rewrite Hr.
  - reflexivity.
  - discriminate.
  - now left.
Qed.

End AskRuns.

(* ------------------------------------------------------------------ *)

(** X4: in the text path of [ask], whatever is raised while the agent
    named by the router is called (a missing field in the data of a
    client, parameters that are not a mapping, ...) is answered with
    "Sorry, something went wrong." and is not raised by [ask]. *)
Theorem agent_failure_is_answered
        (cl : clients) (req : App.request) (data ri : dict pyval)
        (label : string) (target : agent) (e : exn) :
  App.files_photo req = None ->
  App.json req = PDict data ->
  let query := match dict_get "query" data with Some q => q | None => PNone end in
  let language :=
    match dict_get "language" data with Some l => l | None => PStr "English" end in
  let params := match dict_get "parameters" ri with Some p => p | None => PDict [] end in
  fst (exec (App.route_query_to_agent query language) cl) = Ok (PDict ri) ->
  dict_get "agent" ri = Some (PStr label) ->
  dict_get label App.agents = Some target ->
  fst (App.dispatch (PStr label) target params language cl
         [Completion (App.router_prompt (Py.str query)) None]) = Raise e ->
  fst (exec (App.ask req) cl) = Ok (PStr "Sorry, something went wrong.").
Proof.
  intros Hp Hj query language params Hr Hl Ht He.
  rewrite (ask_after_route cl req data (PDict ri) Hp Hj Hr).
  unfold bind at 1. cbn [lift Py.get]. rewrite Hl.
  unfold bind at 1. cbn [lift]. fold params.
  assert (App.is_str (PStr label) "General" = false) as Hng.
  { cbn [App.is_str]. apply String.eqb_neq. intros ->. discriminate Ht. }
  rewrite Hng. unfold bind at 1. rewrite (in_agents_label label target Ht).
  cbn [lift]. unfold bind at 1. cbn [lift]. rewrite Ht.
  unfold try_except.
  destruct (App.dispatch _ _ _ _ _ _) as [[v|e'] log']; cbn [fst] in He.
  - discriminate He.
  - reflexivity.
Qed.

Lemma agent_failure_witness :
  fst (exec (App.ask (text_request "weather in Pune"))
            (fixed_clients reply_weather_pune (weather_of "light rain" 24) PNone))
  = Ok (PStr "Sorry, something went wrong.").
Proof.
  apply (agent_failure_is_answered
           (fixed_clients reply_weather_pune (weather_of "light rain" 24) PNone)
           (text_request "weather in Pune")
           [("query", PStr "weather in Pune"); ("language", PStr "English")]
           [("agent", PStr "WeatherAgent"); ("parameters", PDict [("city", PStr "Pune")])]
           "WeatherAgent" Weather KeyError).
  - reflexivity.
  - reflexivity.
  - vm_compute. reflexivity.
  - reflexivity.
  - reflexivity.
  - vm_compute. reflexivity.
Defined.

(* ------------------------------------------------------------------ *)

(** X5: in the text path, [ask] returns a response and raises nothing
    whenever the body of the request is a mapping, the decision of the
    router is a mapping, its label is not a list or a mapping, and, for
    the label "General", its parameters are a mapping. *)
Theorem ask_text_path_returns
        (cl : clients) (req : App.request) (data ri : dict pyval) :
  App.files_photo req = None ->
  App.json req = PDict data ->
  let query := match dict_get "query" data with Some q => q | None => PNone end in
  let language :=
    match dict_get "language" data with Some l => l | None => PStr "English" end in
  let agent_name := match dict_get "agent" ri with Some a => a | None => PNone end in
  let params := match dict_get "parameters" ri with Some p => p | None => PDict [] end in
  fst (exec (App.route_query_to_agent query language) cl) = Ok (PDict ri) ->
  (exists known, App.in_agents agent_name = Ok known) ->
  (App.is_str agent_name "General" = true -> exists d, params = PDict d) ->
  exists v, fst (exec (App.ask req) cl) = Ok v.
Proof.
  intros Hp Hj query language agent_name params Hr [known Hk] Hg.
  rewrite (ask_after_route cl req data (PDict ri) Hp Hj Hr).
  unfold bind at 1. cbn [lift Py.get]. fold agent_name.
  unfold bind at 1. cbn [lift]. fold params.
  destruct (App.is_str agent_name "General") eqn:G.
  - destruct (Hg eq_refl) as [d ->]. cbn [lift Py.get fst]. eauto.
  - unfold bind at 1. rewrite Hk. cbn [lift]. destruct known.
    + assert (exists a, match agent_name with
                        | PStr s => match dict_get s App.agents with
                                    | Some a => Ok a
                                    | None => Raise KeyError
                                    end
                        | _ => Raise KeyError
                        end = Ok a) as [a Ha].
      { destruct agent_name; cbn [App.in_agents] in Hk; try discriminate Hk.
        injection Hk as Hk. unfold dict_mem in Hk.
        destruct (dict_get s App.agents); [eauto|discriminate]. }
      unfold bind at 1. cbn [lift]. rewrite Ha. unfold try_except.
      destruct (App.dispatch _ _ _ _ _ _) as [[v|e] log']; cbn [fst ret]; eauto.
    + cbn [ret fst]. eauto.
Qed.

Lemma ask_text_path_returns_witness :
  exists v,
    fst (exec (App.ask (text_request "thank you"))
              (fixed_clients reply_unknown_label PNone PNone)) = Ok v.
Proof.
  apply (ask_text_path_returns
           (fixed_clients reply_unknown_label PNone PNone)
           (text_request "thank you")
           [("query", PStr "thank you"); ("language", PStr "English")]
           [("agent", PStr "IrrigationAgent"); ("parameters", PDict [])]).
  - reflexivity.
  - reflexivity.
  - vm_compute. reflexivity.
  - exists false. reflexivity.
  - discriminate.
Defined.

(* ------------------------------------------------------------------ *)

(** X6: [ask] has no fallback for a decision of the wrong type: when the
    router returns valid JSON that is not a mapping (a list, a string, a
    number, ...), reading its label raises [AttributeError]; when the
    label is a list or a mapping, the test against the agent table raises
    [TypeError]; and for the label "General", parameters that are not a
    mapping raise [AttributeError].  None of these is caught. *)
Theorem ask_faults_on_ill_typed_decision
        (cl : clients) (req : App.request) (data : dict pyval) (routing_info : pyval) :
  App.files_photo req = None ->
  App.json req = PDict data ->
  let query := match dict_get "query" data with Some q => q | None => PNone end in
  let language :=
    match dict_get "language" data with Some l => l | None => PStr "English" end in
  fst (exec (App.route_query_to_agent query language) cl) = Ok routing_info ->
  ((forall d, routing_info <> PDict d) ->
   fst (exec (App.ask req) cl) = Raise AttributeError)
  /\ (forall ri agent_name,
         routing_info = PDict ri -> dict_get "agent" ri = Some agent_name ->
         App.in_agents agent_name = Raise TypeError ->
         fst (exec (App.ask req) cl) = Raise TypeError)
  /\ (forall ri params,
         routing_info = PDict ri -> dict_get "agent" ri = Some (PStr "General") ->
         dict_get "parameters" ri = Some params -> (forall d, params <> PDict d) ->
         fst (exec (App.ask req) cl) = Raise AttributeError).
Proof.
  intros Hp Hj query language Hr.
  rewrite (ask_after_route cl req data routing_info Hp Hj Hr).
  split; [|split].
  - intros Hn. unfold bind at 1.
    destruct routing_info; try reflexivity. now destruct (Hn d).
  - intros ri agent_name -> Ha Hk.
    unfold bind at 1. cbn [lift Py.get]. rewrite Ha.
    unfold bind at 1. cbn [lift].
    assert (App.is_str agent_name "General" = false) as ->.
    { destruct agent_name; try reflexivity. discriminate Hk. }
    unfold bind at 1. now rewrite Hk.
  - intros ri params -> Ha Hq Hn.
    unfold bind at 1. cbn [lift Py.get]. rewrite Ha, Hq.
    unfold bind at 1. cbn [lift App.is_str String.eqb Ascii.eqb Bool.eqb].
    destruct params; try reflexivity. now destruct (Hn d).
Qed.

Lemma ask_faults_witness :
  fst (exec (App.ask (text_request "rain?")) (fixed_clients "[1]" PNone PNone))
  = Raise AttributeError.
Proof.
  apply (proj1 (ask_faults_on_ill_typed_decision
                  (fixed_clients "[1]" PNone PNone) (text_request "rain?")
                  [("query", PStr "rain?"); ("language", PStr "English")]
                  (PList [PInt 1]) eq_refl eq_refl eq_refl)).
  discriminate.
Defined.

(* ------------------------------------------------------------------ *)

(** X7: for the label "General" with parameters that are a mapping,
    [ask] answers with the [response] parameter as the router gave it,
    or with "You're welcome!" when there is none, and calls nothing but
    the router. *)
Theorem general_label_echoes_response
        (cl : clients) (req : App.request) (data ri params : dict pyval) :
  App.files_photo req = None ->
  App.json req = PDict data ->
  let query := match dict_get "query" data with Some q => q | None => PNone end in
  let language :=
    match dict_get "language" data with Some l => l | None => PStr "English" end in
  fst (exec (App.route_query_to_agent query language) cl) = Ok (PDict ri) ->
  dict_get "agent" ri = Some (PStr "General") ->
  (dict_get "parameters" ri = Some (PDict params)
   \/ (dict_get "parameters" ri = None /\ params = [])) ->
  exec (App.ask req) cl
  = (Ok match dict_get "response" params with
        | Some r => r
        | None => PStr "You're welcome!"
        end,
     [Completion (App.router_prompt (Py.str query)) None]).
Proof.
  intros Hp Hj query language Hr Ha Hq.
  rewrite (ask_after_route cl req data (PDict ri) Hp Hj Hr).
  unfold bind at 1. cbn [lift Py.get]. rewrite Ha.
  unfold bind at 1. cbn [lift App.is_str String.eqb Ascii.eqb Bool.eqb].
  destruct Hq as [-> | [-> ->]]; reflexivity.
Qed.

(** X8: when the reply of the completion client to the router is not
    valid JSON after cleaning, [ask] answers with the generic "not sure
    how to help" sentence and calls nothing but the router. *)
Theorem unreadable_reply_gets_generic_answer
        (cl : clients) (req : App.request) (data : dict pyval) :
  App.files_photo req = None ->
  App.json req = PDict data ->
  let query := match dict_get "query" data with Some q => q | None => PNone end in
  let prompt := App.router_prompt (Py.str query) in
  Json.loads (App.clean (gemini cl [] prompt None)) = Raise JSONDecodeError ->
  exec (App.ask req) cl = (Ok (PStr App.not_sure), [Completion prompt None]).
Proof. exact (unreadable_reply_run cl req data). Qed.

Lemma general_label_witness :
  exec (App.ask (text_request "thanks"))
       (fixed_clients reply_with_fence_in_text PNone PNone)
  = (Ok (PStr "Use x here"), [Completion (App.router_prompt "thanks") None]).
Proof.
  apply (general_label_echoes_response
           (fixed_clients reply_with_fence_in_text PNone PNone)
           (text_request "thanks")
           [("query", PStr "thanks"); ("language", PStr "English")]
           [("agent", PStr "General");
            ("parameters", PDict [("response", PStr "Use x here")])]
           [("response", PStr "Use x here")]).
  - reflexivity.
  - reflexivity.
  - vm_compute. reflexivity.
  - reflexivity.
  - left. reflexivity.
Defined.

Lemma unreadable_reply_witness :
  exec (App.ask (text_request "rain?"))
       (fixed_clients reply_with_preamble PNone PNone)
  = (Ok (PStr App.not_sure), [Completion (App.router_prompt "rain?") None]).
Proof.
  apply (unreadable_reply_gets_generic_answer
           (fixed_clients reply_with_preamble PNone PNone)
           (text_request "rain?")
           [("query", PStr "rain?"); ("language", PStr "English")]).
  - reflexivity.
  - reflexivity.
  - vm_compute. reflexivity.
Defined.

(* ------------------------------------------------------------------ *)

Section Steps.

Lemma bind_lift_ok {A B} (a : A) (k : A -> M B) : bind (lift (Ok a)) k = k a.
Proof. reflexivity. Qed.

Lemma bind_run {A B} (m : M A) (k : A -> M B) (cl : clients) (log log' : list event)
      (a : A) :
  m cl log = (Ok a, log') -> bind m k cl log = k a cl log'.
Proof. intros H. unfold bind. now rewrite H. Qed.

Lemma try_except_ok {A} (m h : M A) (handles : exn -> bool)
      (cl : clients) (log log' : list event) (a : A) :
  m cl log = (Ok a, log') -> try_except m handles h cl log = (Ok a, log').
Proof. intros H. unfold try_except. now rewrite H. Qed.

(** The first test of each agent operation. *)
Lemma market_guidance (b : AgentBridge.t) (commodity market lang : pyval)
      (cl : clients) (log : list event) :
  Py.truthy commodity && Py.truthy market = false ->
  MarketAgent.get_market_price b commodity market lang cl log
  = (Ok "To get market prices, please tell me the crop and the market name (mandi).",
     log).
Proof.
  intros H. unfold MarketAgent.get_market_price. now rewrite <- negb_andb, H.
Qed.

Lemma scheme_guidance (query lang : pyval) (cl : clients) (log : list event) :
  Py.truthy query = false ->
  SchemeAgent.find_schemes query lang cl log
  = (Ok "Please tell me what kind of scheme or subsidy you are looking for.", log).
Proof. intros H. unfold SchemeAgent.find_schemes. now rewrite H. Qed.

Lemma weather_guidance (city lang : pyval) (cl : clients) (log : list event) :
  Py.truthy city = false ->
  WeatherAgent.get_weather city lang cl log
  = (Ok "Please tell me the city or town for the weather forecast.", log).
Proof. intros H. unfold WeatherAgent.get_weather. now rewrite H. Qed.

Lemma organic_guidance (topic lang : pyval) (cl : clients) (log : list event) :
  Py.truthy topic = false ->
  OrganicAgent.get_tips topic lang cl log
  = (Ok "Please tell me what organic farming topic you are interested in.", log).
Proof. intros H. unfold OrganicAgent.get_tips. now rewrite H. Qed.

Lemma soil_guidance (query lang : pyval) (cl : clients) (log : list event) :
  Py.truthy query = false ->
  SoilAgent.analyze_soil query lang cl log
  = (Ok "Please describe your soil. For example, 'My soil is red and does not hold water well'.",
     log).
Proof. intros H. unfold SoilAgent.analyze_soil. now rewrite H. Qed.

End Steps.

(** Runs [ask] up to the call of the agent of a label of the table. *)
Ltac reach_agent label target :=
  cbn [App.is_str String.eqb Ascii.eqb Bool.eqb];
  change (App.in_agents (PStr label)) with (@Ok bool true);
  rewrite bind_lift_ok; cbv beta iota;
  change (dict_get label App.agents) with (Some target);
  cbv beta iota; rewrite bind_lift_ok; cbv beta;
  unfold App.dispatch;
  cbn [App.is_str String.eqb Ascii.eqb Bool.eqb Py.get];
  rewrite !bind_lift_ok.

(** X9: when the router names an agent but its decision lacks a
    parameter the agent requires (or gives it empty), [ask] answers with
    the guidance sentence of that agent and calls no client besides the
    router: an incomplete decision does not reach the network. *)
Theorem incomplete_decision_gets_guidance
        (cl : clients) (req : App.request) (data ri params : dict pyval)
        (label : string) :
  App.files_photo req = None ->
  App.json req = PDict data ->
  let query := match dict_get "query" data with Some q => q | None => PNone end in
  let language :=
    match dict_get "language" data with Some l => l | None => PStr "English" end in
  let given key := Py.truthy match dict_get key params with
                             | Some v => v
                             | None => PNone
                             end in
  let answer s := exec (App.ask req) cl
                  = (Ok (PStr s), [Completion (App.router_prompt (Py.str query)) None]) in
  fst (exec (App.route_query_to_agent query language) cl) = Ok (PDict ri) ->
  dict_get "agent" ri = Some (PStr label) ->
  (dict_get "parameters" ri = Some (PDict params)
   \/ (dict_get "parameters" ri = None /\ params = [])) ->
  (label = "MarketAgent" -> given "commodity" && given "market" = false ->
   answer "To get market prices, please tell me the crop and the market name (mandi).")
  /\ (label = "SchemeAgent" -> given "query" = false ->
      answer "Please tell me what kind of scheme or subsidy you are looking for.")
  /\ (label = "WeatherAgent" -> given "city" = false ->
      answer "Please tell me the city or town for the weather forecast.")
  /\ (label = "OrganicAgent" -> given "topic" = false ->
      answer "Please tell me what organic farming topic you are interested in.")
  /\ (label = "SoilAgent" -> given "query" = false ->
      answer "Please describe your soil. For example, 'My soil is red and does not hold water well'.").
Proof.
  intros Hp Hj query language given answer Hr Ha Hq. subst answer. cbv beta.
  rewrite (ask_after_route cl req data (PDict ri) Hp Hj Hr).
  cbn [Py.get]. rewrite Ha, bind_lift_ok.
  assert (match dict_get "parameters" ri with
          | Some p => p
          | None => PDict []
          end = PDict params) as ->.
  { destruct Hq as [-> | [-> ->]]; reflexivity. }
  rewrite bind_lift_ok. subst given. cbv beta.
  repeat split; intros -> Hm.
  - reach_agent "MarketAgent" Market. cbn [App.call_get_market_price].
    apply try_except_ok. erewrite bind_run; [reflexivity|].
    now apply market_guidance.
  - reach_agent "SchemeAgent" Scheme. cbn [App.call_find_schemes].
    apply try_except_ok. erewrite bind_run; [reflexivity|].
    now apply scheme_guidance.
  - reach_agent "WeatherAgent" Weather. cbn [App.call_get_weather].
    apply try_except_ok. erewrite bind_run; [reflexivity|].
    now apply weather_guidance.
  - reach_agent "OrganicAgent" Organic. cbn [App.call_get_tips].
    apply try_except_ok. erewrite bind_run; [reflexivity|].
    now apply organic_guidance.
  - reach_agent "SoilAgent" Soil. cbn [App.call_analyze_soil].
    apply try_except_ok. erewrite bind_run; [reflexivity|].
    now apply soil_guidance.
Qed.

Lemma incomplete_decision_witness :
  exec (App.ask (text_request "weather"))
       (fixed_clients reply_without_parameters PNone PNone)
  = (Ok (PStr "Please tell me the city or town for the weather forecast."),
     [Completion (App.router_prompt "weather") None]).
Proof.
  apply (proj1 (proj2 (proj2
           (incomplete_decision_gets_guidance
              (fixed_clients reply_without_parameters PNone PNone)
              (text_request "weather")
              [("query", PStr "weather"); ("language", PStr "English")]
              [("agent", PStr "WeatherAgent")] [] "WeatherAgent"
              eq_refl eq_refl eq_refl eq_refl
              (or_intror (conj eq_refl eq_refl)))))); reflexivity.
Defined.

(* ------------------------------------------------------------------ *)



(* ------------------------------------------------------------------ *)

Section MarketRuns.

(** A market query whose data has no error and holds records: what the
    bridge returned goes into the prompt, and the reply is returned. *)
Lemma market_run (cl : clients) (b : AgentBridge.t) (commodity market lang : pyval)
      (records : pyval) (report : string) (log' : list event) :
  Py.truthy commodity = true -> Py.truthy market = true ->
  Py.contains "error" (market_api cl [] commodity market) = Ok false ->
  Py.getitem (market_api cl [] commodity market) "records" = Ok records ->
  AgentBridge.request b "WeatherAgent" "get_simple_forecast" [("city", market)]
                      cl [MarketLookup commodity market]
  = (Ok report, log') ->
  let prompt :=
    Prompts.market_prompt (Py.str commodity) (Py.str market) report
                          (Json.dumps records (Some 2)) (Py.str lang) in
  exec (MarketAgent.get_market_price b commodity market lang) cl
  = (Ok (gemini cl log' prompt None), (log' ++ [Completion prompt None])%list).
Proof.
  intros Hc Hm He Hr Hb prompt.
  unfold exec, MarketAgent.get_market_price. rewrite Hc, Hm. cbn [negb orb].
  rewrite (bind_run (get_market_data_from_gov_api commodity market) _ cl []
             [MarketLookup commodity market] _ eq_refl).
  rewrite He, bind_lift_ok. cbv beta iota.
  rewrite (bind_run _ _ cl _ log' report Hb).
  rewrite Hr, bind_lift_ok. reflexivity.
Qed.

End MarketRuns.



(** X12: a market query survives a missing forecast.  When no agent is
    registered under "WeatherAgent", or when the weather client answers
    with an error, the bridge returns a sentence instead of a forecast
    ("Error: Agent 'WeatherAgent' not found." or "Weather data
    unavailable."), [get_market_price] raises nothing, puts that
    sentence into its prompt and still calls the completion client once. *)
Theorem market_query_survives_missing_forecast
        (cl : clients) (b : AgentBridge.t) (commodity market lang : pyval)
        (records : pyval) :
  Py.truthy commodity = true -> Py.truthy market = true ->
  Py.contains "error" (market_api cl [] commodity market) = Ok false ->
  Py.getitem (market_api cl [] commodity market) "records" = Ok records ->
  let asked := [MarketLookup commodity market;
                BridgeRequest "WeatherAgent" "get_simple_forecast" [("city", market)]] in
  (dict_get "WeatherAgent" b = None ->
   exists prompt,
     exec (MarketAgent.get_market_price b commodity market lang) cl
     = (Ok (gemini cl asked prompt None), (asked ++ [Completion prompt None])%list)
     /\ Text.str_in "Error: Agent 'WeatherAgent' not found." prompt = true)
  /\ (dict_get "WeatherAgent" b = Some Weather ->
      Py.contains "error" (weather_api cl asked market) = Ok true ->
      exists prompt,
        exec (MarketAgent.get_market_price b commodity market lang) cl
        = (Ok (gemini cl (asked ++ [WeatherLookup market]) prompt None),
           (asked ++ [WeatherLookup market; Completion prompt None])%list)
        /\ Text.str_in "Weather data unavailable." prompt = true).
Proof.
  intros Hc Hm He Hr asked. split.
  - intros Hb. eexists. split.
    + apply (market_run cl b commodity market lang records
               "Error: Agent 'WeatherAgent' not found." asked Hc Hm He Hr).
      unfold AgentBridge.request, bind, bridge_routing. now rewrite Hb.
    + apply str_in_concat. cbn [In]. tauto.
  - intros Hb Hw. eexists. split.
    + rewrite (market_run cl b commodity market lang records
                 "Weather data unavailable." (asked ++ [WeatherLookup market])%list
                 Hc Hm He Hr).
      * now rewrite <- app_assoc.
      * unfold AgentBridge.request, bind at 1, bridge_routing. rewrite Hb.
        cbn [AgentBridge.handle_request_of app].
        unfold WeatherAgent.handle_request.
        cbn [String.eqb Ascii.eqb Bool.eqb dict_get]. rewrite Hm. cbn [negb].
        rewrite (bind_run (get_weather_from_api market) _ cl asked
                   (asked ++ [WeatherLookup market])%list _ eq_refl).
        now rewrite Hw.
    + apply str_in_concat. cbn [In]. tauto.
Qed.

Lemma market_query_survives_witness :
  exists prompt,
    exec (MarketAgent.get_market_price AgentBridge.init (PStr "Potato") (PStr "Agra")
                                       (PStr "English"))
         (fixed_clients "Sell today." PNone potato_records)
    = (Ok "Sell today.",
       [MarketLookup (PStr "Potato") (PStr "Agra");
        BridgeRequest "WeatherAgent" "get_simple_forecast" [("city", PStr "Agra")];
        Completion prompt None])
    /\ Text.str_in "Error: Agent 'WeatherAgent' not found." prompt = true.
Proof.
  apply (proj1 (market_query_survives_missing_forecast
                  (fixed_clients "Sell today." PNone potato_records)
                  AgentBridge.init (PStr "Potato") (PStr "Agra") (PStr "English")
                  (PList [PDict [("min_price", PStr "800"); ("max_price", PStr "1200");
                                 ("modal_price", PStr "1000")]])
                  eq_refl eq_refl eq_refl eq_refl)).
  reflexivity.
Defined.

(* ------------------------------------------------------------------ *)

Section RegistryFacts.

Lemma dict_get_set_same {V} (k : string) (v : V) (d : dict V) :
  dict_get k (dict_set k v d) = Some v.
Proof.
  induction d as [|[k' v'] d IH]; cbn [dict_set dict_get].
  - now rewrite String.eqb_refl.
  - destruct (String.eqb k' k) eqn:E; cbn [dict_get].
    + now rewrite String.eqb_refl.
    + now rewrite E.
Qed.

Lemma dict_get_set_other {V} (k k0 : string) (v : V) (d : dict V) :
  k0 <> k -> dict_get k0 (dict_set k v d) = dict_get k0 d.
Proof.
  intros Hne. induction d as [|[k' v'] d IH]; cbn [dict_set dict_get].
  - apply String.eqb_neq in Hne. rewrite String.eqb_sym. now rewrite Hne.
  - destruct (String.eqb k' k) eqn:E; cbn [dict_get].
    + apply String.eqb_eq in E. subst k'.
      apply String.eqb_neq in Hne. rewrite String.eqb_sym. now rewrite Hne.
    + destruct (String.eqb k' k0); [reflexivity|exact IH].
Qed.

Lemma dict_set_keys {V} (k : string) (v : V) (d : dict V) :
  map fst (dict_set k v d)
  = if dict_mem k d then map fst d else (map fst d ++ [k])%list.
Proof.
  unfold dict_mem. induction d as [|[k' v'] d IH]; cbn [dict_set dict_get map fst app].
  - reflexivity.
  - destruct (String.eqb k' k) eqn:E; cbn [map fst].
    + apply String.eqb_eq in E. now subst.
    + rewrite IH. now destruct (dict_get k d).
Qed.

Lemma dict_mem_in {V} (k : string) (d : dict V) :
  dict_mem k d = true <-> In k (map fst d).
Proof.
  unfold dict_mem. induction d as [|[k' v'] d IH]; cbn [dict_get map fst In].
  - split; [discriminate|intros []].
  - destruct (String.eqb_spec k' k) as [->|Hne].
    + split; auto.
    + rewrite IH. split; [auto|intros [H|H]; [contradiction|exact H]].
Qed.

End RegistryFacts.

(** X13: registration is an update of the registry: after
    [register_agent b name a] the name resolves to [a], whatever it
    resolved to before; every other name resolves as before; names stay
    distinct; and the registry grows by one entry exactly when the name
    was new. *)
Theorem register_agent_updates_registry
        (b : AgentBridge.t) (name other : string) (a : agent) :
  dict_get name (AgentBridge.register_agent b name a) = Some a
  /\ (other <> name ->
      dict_get other (AgentBridge.register_agent b name a) = dict_get other b)
  /\ (NoDup (map fst b) -> NoDup (map fst (AgentBridge.register_agent b name a)))
  /\ List.length (AgentBridge.register_agent b name a)
     = if dict_mem name b then List.length b else S (List.length b).
Proof.
  unfold AgentBridge.register_agent. split; [|split; [|split]].
  - apply dict_get_set_same.
  - apply dict_get_set_other.
  - intros Hd. rewrite dict_set_keys. destruct (dict_mem name b) eqn:E; [exact Hd|].
    apply NoDup_app; [exact Hd|repeat constructor; intros []|].
    intros x Hx [<-|[]]. apply dict_mem_in in Hx. congruence.
  - rewrite <- (length_map fst), dict_set_keys, <- (length_map fst b).
    destruct (dict_mem name b); [reflexivity|].
    rewrite length_app. cbn. lia.
Qed.

Lemma register_agent_witness :
  dict_get "SoilAgent" (AgentBridge.register_agent App.bridge "WeatherAgent" Crop)
  = dict_get "SoilAgent" App.bridge.
Proof.
  apply (proj1 (proj2 (register_agent_updates_registry
                         App.bridge "WeatherAgent" "SoilAgent" Crop))).
  discriminate.
Defined.

(** X14: the bridge adds nothing of its own to an answer.  A request to
    a name under which a weather agent was registered last returns what
    [handle_request] returns for the same task and data, with the same
    lookups; if an agent of any other class was registered last under
    that name, the request returns the "cannot handle requests" sentence
    and no client is called. *)
Theorem request_after_registration
        (b : AgentBridge.t) (name task : string) (data : dict pyval) (a : agent)
        (cl : clients) (log : list event) :
  let asked := (log ++ [BridgeRequest name task data])%list in
  let run := AgentBridge.request (AgentBridge.register_agent b name a)
                                 name task data cl log in
  (a = Weather -> run = WeatherAgent.handle_request task data cl asked)
  /\ (a <> Weather ->
      run = (Ok ("Error: Agent '" ++ name ++ "' cannot handle requests."), asked)).
Proof.
  cbv zeta. unfold AgentBridge.request, bind, bridge_routing.
  unfold AgentBridge.register_agent. rewrite dict_get_set_same.
  split.
  - intros ->. reflexivity.
  - intros Hne. destruct a; try reflexivity. now destruct Hne.
Qed.

Lemma request_after_registration_witness :
  AgentBridge.request (AgentBridge.register_agent App.bridge "WeatherAgent" Soil)
                      "WeatherAgent" "get_simple_forecast" [("city", PStr "Agra")]
                      (fixed_clients "" (weather_of "clear sky" 28) PNone) []
  = (Ok "Error: Agent 'WeatherAgent' cannot handle requests.",
     [BridgeRequest "WeatherAgent" "get_simple_forecast" [("city", PStr "Agra")]]).
Proof.
  apply (proj2 (request_after_registration
                  App.bridge "WeatherAgent" "get_simple_forecast"
                  [("city", PStr "Agra")] Soil
                  (fixed_clients "" (weather_of "clear sky" 28) PNone) [])).
  discriminate.
Defined.

(* ------------------------------------------------------------------ *)

Section FenceFacts.
Import Text Json.
Local Open Scope list_scope.

(** Dropping the characters of an occurrence that is being replaced. *)
Lemma replace_from_skip (old new p rest : list ascii) :
  replace_from old new (List.length p) (p ++ rest) = replace_from old new 0 rest.
Proof.
  induction p as [|c p IH]; [reflexivity|].
  cbn [List.length app replace_from]. exact IH.
Qed.

Lemma replace_from_here (old new rest : list ascii) :
  old <> [] ->
  replace_from old new 0 (old ++ rest) = new ++ replace_from old new 0 rest.
Proof.
  destruct old as [|c old]; [congruence|intros _].
  cbn [app replace_from].
  assert (prefixb (c :: old) (c :: old ++ rest) = true) as ->.
  { apply prefixb_iff. now exists rest. }
  replace (List.length (c :: old) - 1) with (List.length old)
    by (cbn [List.length]; lia).
  now rewrite replace_from_skip.
Qed.

(** A text without backquote cannot hold the start of a fence. *)
Lemma containsb_past (p body tail : list ascii) :
  ~ In backquote body ->
  containsb (backquote :: p) (body ++ tail) = containsb (backquote :: p) tail.
Proof.
  induction body as [|c body IH]; [reflexivity|].
  intros Hn. cbn [app containsb prefixb].
  destruct (Ascii.eqb_spec backquote c) as [<-|_].
  - destruct Hn. now left.
  - cbn [andb orb]. apply IH. intros H. apply Hn. now right.
Qed.

Lemma replace_from_past (p new body tail : list ascii) :
  ~ In backquote body ->
  replace_from (backquote :: p) new 0 (body ++ tail)
  = body ++ replace_from (backquote :: p) new 0 tail.
Proof.
  induction body as [|c body IH]; [reflexivity|].
  intros Hn. cbn [app replace_from prefixb].
  destruct (Ascii.eqb_spec backquote c) as [<-|_].
  - destruct Hn. now left.
  - cbn [andb]. f_equal. apply IH. intros H. apply Hn. now right.
Qed.

Lemma lstrip_spaces (w s : list ascii) :
  Forall (fun c => space1 c = true) w -> lstrip (w ++ s) = lstrip s.
Proof.
  induction 1 as [|c w Hc _ IH]; [reflexivity|].
  cbn [app lstrip]. now rewrite Hc.
Qed.

Lemma lstrip_rev_spaces (w s : list ascii) :
  Forall (fun c => space1 c = true) w -> lstrip_rev (w ++ s) = lstrip_rev s.
Proof.
  induction 1 as [|c w Hc _ IH]; [reflexivity|].
  cbn [app lstrip_rev]. now rewrite Hc.
Qed.

Lemma lstrip_backquote (s : list ascii) : lstrip (backquote :: s) = backquote :: s.
Proof. destruct s as [|c2 [|c3 s3]]; reflexivity. Qed.

Lemma lstrip_rev_backquote (s : list ascii) :
  lstrip_rev (backquote :: s) = backquote :: s.
Proof.
  destruct s as [|c2 [|c3 s3]]; cbn [lstrip_rev]; try reflexivity.
  - change (space1 backquote) with false. cbv iota.
    unfold space2. change (code backquote =? 133) with false.
    change (code backquote =? 160) with false. cbn [orb]. now rewrite andb_false_r.
  - change (space1 backquote) with false. cbv iota.
    unfold space2. change (code backquote =? 133) with false.
    change (code backquote =? 160) with false. cbn [orb]. rewrite andb_false_r.
    unfold space3. cbv zeta.
    change (code backquote =? 128) with false.
    change (128 <=? code backquote) with false.
    change (code backquote =? 168) with false.
    change (code backquote =? 169) with false.
    change (code backquote =? 175) with false.
    change (code backquote =? 159) with false.
    cbn [andb orb]. now rewrite !andb_false_r.
Qed.

End FenceFacts.

Section FencedReplies.
Import Text Json.
Local Open Scope list_scope.

Lemma no_backquote (s : list ascii) :
  containsb [backquote] s = false -> ~ In backquote s.
Proof.
  induction s as [|c s IH]; [intros _ []|].
  cbn [containsb prefixb]. intros H [->|Hin].
  - now rewrite Ascii.eqb_refl in H.
  - apply orb_false_iff in H. destruct H as [_ H]. now apply IH.
Qed.

Lemma spaces_forall (w : list ascii) :
  forallb space1 w = true -> Forall (fun c => space1 c = true) w.
Proof. intros H. apply Forall_forall. now apply forallb_forall. Qed.

(** [strip] on a fenced block surrounded by whitespace leaves the block. *)
Lemma strip_fenced (before middle after : list ascii) :
  forallb space1 before = true -> forallb space1 after = true ->
  rstrip (lstrip (before ++ backquote :: middle ++ backquote :: after))
  = backquote :: middle ++ [backquote].
Proof.
  intros Hb Ha.
  rewrite lstrip_spaces by now apply spaces_forall.
  rewrite lstrip_backquote. unfold rstrip.
  replace (backquote :: middle ++ backquote :: after)
    with ((backquote :: middle ++ [backquote]) ++ after)
    by (cbn [app]; now rewrite <- app_assoc).
  rewrite rev_app_distr, lstrip_rev_spaces.
  - replace (rev (backquote :: middle ++ [backquote]))
      with (backquote :: rev (backquote :: middle))
      by (change (backquote :: middle ++ [backquote])
            with ((backquote :: middle) ++ [backquote]);
          now rewrite rev_app_distr).
    rewrite lstrip_rev_backquote.
    change (backquote :: rev (backquote :: middle))
      with (rev [backquote] ++ rev (backquote :: middle)).
    now rewrite <- rev_app_distr, rev_involutive.
  - apply Forall_rev. now apply spaces_forall.
Qed.

(** A text that decodes starts neither with a backquote nor with [j]. *)
Lemma decode_first (s : list ascii) (v : pyval) :
  decode s = Some v ->
  exists c s', s = c :: s' /\ c <> backquote /\ c <> "j"%char.
Proof.
  destruct s as [|c s']; [discriminate|]. intros H.
  exists c, s'. split; [reflexivity|].
  split; intros ->; discriminate H.
Qed.

Lemma containsb_cons (p s : list ascii) (c : ascii) :
  containsb p (c :: s) = prefixb p (c :: s) || containsb p s.
Proof. reflexivity. Qed.

Lemma prefixb_not (p s : list ascii) :
  (forall r, s <> p ++ r) -> prefixb p s = false.
Proof.
  intros H. destruct (prefixb p s) eqn:E; [|reflexivity].
  apply prefixb_iff in E. destruct E as [r Hr]. now destruct (H r).
Qed.

(** After an opening fence without [json], a text that starts neither
    with [j] nor with a backquote and holds no backquote leaves no room
    for the marker with [json]. *)
Lemma json_fence_absent (Y : list ascii) (y : ascii) (Y' : list ascii) :
  Y = y :: Y' -> y <> backquote -> y <> "j"%char -> ~ In backquote Y ->
  containsb (chars App.json_fence)
            ([backquote; backquote; backquote] ++ Y
             ++ [backquote; backquote; backquote]) = false.
Proof.
  intros EY Hy1 Hy2 Hn. cbn [app]. rewrite !containsb_cons.
  rewrite !prefixb_not.
  - cbn [orb]. change (chars App.json_fence) with (backquote :: chars "``json").
    now rewrite (containsb_past _ Y _ Hn).
  - intros r Hr. rewrite EY in Hr. change backquote with "`"%char in *.
    cbn in Hr. injection Hr. intros. congruence.
  - intros r Hr. rewrite EY in Hr. change backquote with "`"%char in *.
    cbn in Hr. injection Hr. intros. congruence.
  - intros r Hr. rewrite EY in Hr. change backquote with "`"%char in *.
    cbn in Hr. injection Hr. intros. congruence.
Qed.

End FencedReplies.

(** X15: the cleaning step of the router does what it is there for.  A
    reply that wraps a JSON text in a fence, opened by the marker with
    or without [json] and surrounded by any ASCII whitespace, is decoded
    to what the JSON text inside denotes, provided that text holds no
    backquote. *)
Theorem fenced_reply_is_decoded (before body after : string) (v : pyval) :
  Json.loads body = Ok v ->
  Text.str_in "`" body = false ->
  forallb Text.space1 (Text.chars before) = true ->
  forallb Text.space1 (Text.chars after) = true ->
  Json.loads (App.clean (fenced before "```json" body after)) = Ok v
  /\ Json.loads (App.clean (fenced before "```" body after)) = Ok v.
Proof.
  intros Hv Hq Hb Ha.
  apply loads_ok in Hv.
  assert (~ In backquote (Text.chars body)) as Hn by now apply no_backquote.
  destruct (decode_first _ _ Hv) as [y [Y' [EY [Hy1 Hy2]]]].
  set (B := Text.chars before) in *. set (A := Text.chars after) in *.
  set (Y := Text.chars body) in *.
  set (q := backquote).
  split.
  - assert (Text.chars (Text.strip (fenced before "```json" body after))
            = Text.chars "```json" ++ Y ++ [q; q; q])%list as Hs.
    { unfold Text.strip, fenced. rewrite chars_text, !chars_app.
      fold B A Y.
      change (Text.chars "```json") with (q :: [q; q] ++ Text.chars "json")%list.
      change (Text.chars "```") with ([q; q] ++ [q])%list.
      replace (B ++ (q :: [q; q] ++ Text.chars "json") ++ Y ++ ([q; q] ++ [q]) ++ A)%list
        with (B ++ q :: (([q; q] ++ Text.chars "json") ++ Y ++ [q; q]) ++ q :: A)%list
        by (cbn [app]; now rewrite <- !app_assoc).
      rewrite (strip_fenced B _ A Hb Ha).
      cbn [app]. now rewrite <- !app_assoc. }
    unfold App.clean, Text.replace. rewrite chars_text, Hs.
    rewrite replace_from_here by discriminate.
    change (Text.chars "```json") with (backquote :: Text.chars "``json").
    rewrite (replace_from_past _ _ Y _ Hn).
    change (Text.replace_from (backquote :: Text.chars "``json") (Text.chars "") 0 [q; q; q])
      with [q; q; q].
    change (Text.chars "") with (@nil ascii). cbn [app].
    change (Text.chars App.fence) with (backquote :: [q; q]).
    rewrite (replace_from_past _ _ Y _ Hn).
    change (Text.replace_from (backquote :: [q; q]) [] 0 [q; q; q]) with (@nil ascii).
    rewrite app_nil_r. apply loads_ok. now rewrite chars_text.
  - assert (Text.chars (Text.strip (fenced before "```" body after))
            = [q; q; q] ++ Y ++ [q; q; q])%list as Hs.
    { unfold Text.strip, fenced. rewrite chars_text, !chars_app.
      fold B A Y.
      change (Text.chars "```") with ([q; q] ++ [q])%list at 2.
      change (Text.chars "```") with (q :: [q; q])%list.
      replace (B ++ (q :: [q; q]) ++ Y ++ ([q; q] ++ [q]) ++ A)%list
        with (B ++ q :: ([q; q] ++ Y ++ [q; q]) ++ q :: A)%list
        by (cbn [app]; now rewrite <- !app_assoc).
      rewrite (strip_fenced B _ A Hb Ha).
      cbn [app]. now rewrite <- !app_assoc. }
    unfold App.clean, Text.replace. rewrite chars_text, Hs.
    assert (Text.replace_from (Text.chars App.json_fence) (Text.chars "") 0
                         ([q; q; q] ++ Y ++ [q; q; q])
            = [q; q; q] ++ Y ++ [q; q; q])%list as ->.
    { apply replace_from_absent. now apply (json_fence_absent Y y Y'). }
    change (Text.chars App.fence) with [q; q; q].
    rewrite replace_from_here by discriminate.
    change (Text.chars "") with (@nil ascii). cbn [app].
    change [q; q; q] with (backquote :: [q; q]).
    rewrite (replace_from_past _ _ Y _ Hn).
    change (Text.replace_from (backquote :: [q; q]) [] 0 (backquote :: [q; q]))
      with (@nil ascii).
    rewrite app_nil_r. apply loads_ok. now rewrite chars_text.
Qed.

Lemma fenced_reply_witness :
  Json.loads (App.clean (fenced "" "```json" (Text.nl ++ reply_crop ++ Text.nl) Text.nl))
  = Ok (PDict [("agent", PStr "CropAgent"); ("parameters", PDict [])]).
Proof.
  apply (proj1 (fenced_reply_is_decoded
                  "" (Text.nl ++ reply_crop ++ Text.nl) Text.nl
                  (PDict [("agent", PStr "CropAgent"); ("parameters", PDict [])])
                  eq_refl eq_refl eq_refl eq_refl)).
Defined.

(* ------------------------------------------------------------------ *)



Section ServedClients.

Lemma served_weather (w : ApiHelpers.world) (cl : clients) (log : list event)
      (city : pyval) (message : string) :
  ApiHelpers.serves w cl ->
  fst (ApiHelpers.get_weather_from_api w city)
  = Some (PDict [("error", PStr message)]) ->
  weather_api cl log city = PDict [("error", PStr message)].
Proof.
  intros [_ [H _]] E. specialize (H log city). rewrite E in H. now injection H.
Qed.

Lemma served_market (w : ApiHelpers.world) (cl : clients) (log : list event)
      (commodity market : pyval) (message : string) :
  ApiHelpers.serves w cl ->
  fst (ApiHelpers.get_market_data_from_gov_api w commodity market)
  = Some (PDict [("error", PStr message)]) ->
  market_api cl log commodity market = PDict [("error", PStr message)].
Proof.
  intros [_ [_ H]] E. specialize (H log commodity market). rewrite E in H.
  now injection H.
Qed.

Lemma weather_failure_run (cl : clients) (log : list event) (city lang : pyval)
      (message : string) :
  Py.truthy city = true ->
  weather_api cl log city = PDict [("error", PStr message)] ->
  WeatherAgent.get_weather city lang cl log
  = (Ok ("Could not get weather for '" ++ Py.str city ++ "'. Reason: " ++ message),
     (log ++ [WeatherLookup city])%list)
  /\ WeatherAgent.handle_request "get_simple_forecast" [("city", city)] cl log
     = (Ok "Weather data unavailable.", (log ++ [WeatherLookup city])%list).
Proof.
  intros Hc Hw. unfold WeatherAgent.get_weather, WeatherAgent.handle_request.
  cbn [String.eqb Ascii.eqb Bool.eqb dict_get]. rewrite Hc. cbn [negb].
  rewrite !(bind_run (get_weather_from_api city) _ cl log
              (log ++ [WeatherLookup city])%list _ eq_refl).
  rewrite Hw. split; reflexivity.
Qed.

Lemma market_failure_run (cl : clients) (b : AgentBridge.t) (log : list event)
      (commodity market lang : pyval) (message : string) :
  Py.truthy commodity = true -> Py.truthy market = true ->
  market_api cl log commodity market = PDict [("error", PStr message)] ->
  MarketAgent.get_market_price b commodity market lang cl log
  = (Ok ("Sorry, I could not fetch market data. Reason: " ++ message),
     (log ++ [MarketLookup commodity market])%list).
Proof.
  intros Hc Hm Hw. unfold MarketAgent.get_market_price.
  rewrite Hc, Hm. cbn [negb orb].
  rewrite (bind_run (get_market_data_from_gov_api commodity market) _ cl log
             (log ++ [MarketLookup commodity market])%list _ eq_refl).
  now rewrite Hw.
Qed.

End ServedClients.

(** X17: a failure of a data helper reaches the user as a sentence.
    When the clients of the agents are the helpers of [api_helpers.py]
    and the weather key is absent or empty, or the weather request
    raises a [RequestException], [get_weather] answers "Could not get
    weather for '<city>'. Reason: <reason>" and the bridge handler
    answers "Weather data unavailable."; when the market key is absent or
    empty, or the market request raises a [RequestException],
    [get_market_price] answers "Sorry, I could not fetch market data.
    Reason: <reason>".  In each case the data client is asked once and
    the completion client never. *)
Theorem data_failure_reaches_the_user
        (w : ApiHelpers.world) (cl : clients) (b : AgentBridge.t)
        (city commodity market lang : pyval) (log : list event) :
  ApiHelpers.serves w cl ->
  Py.truthy city = true -> Py.truthy commodity = true -> Py.truthy market = true ->
  let weather_says reason :=
    WeatherAgent.get_weather city lang cl log
    = (Ok ("Could not get weather for '" ++ Py.str city ++ "'. Reason: " ++ reason),
       (log ++ [WeatherLookup city])%list)
    /\ WeatherAgent.handle_request "get_simple_forecast" [("city", city)] cl log
       = (Ok "Weather data unavailable.", (log ++ [WeatherLookup city])%list) in
  let market_says reason :=
    MarketAgent.get_market_price b commodity market lang cl log
    = (Ok ("Sorry, I could not fetch market data. Reason: " ++ reason),
       (log ++ [MarketLookup commodity market])%list) in
  (ApiHelpers.key_of w "OPENWEATHER_API_KEY" = None ->
   weather_says "OPENWEATHER_API_KEY not found.")
  /\ (forall api_key request reason,
         ApiHelpers.key_of w "OPENWEATHER_API_KEY" = Some api_key ->
         snd (ApiHelpers.get_weather_from_api w city) = [request] ->
         ApiHelpers.http w request = ApiHelpers.RequestException reason ->
         weather_says reason)
  /\ (ApiHelpers.key_of w "DATA_GOV_IN_API_KEY" = None ->
      market_says "DATA_GOV_IN_API_KEY not found.")
  /\ (forall api_key request reason,
         ApiHelpers.key_of w "DATA_GOV_IN_API_KEY" = Some api_key ->
         snd (ApiHelpers.get_market_data_from_gov_api w commodity market) = [request] ->
         ApiHelpers.http w request = ApiHelpers.RequestException reason ->
         market_says reason).
Proof.
  intros Hs Hc Hco Hm. cbv zeta.
  split; [|split; [|split]].
  - intros Hk. apply (weather_failure_run cl log city lang _ Hc).
    apply (served_weather w cl log city _ Hs).
    unfold ApiHelpers.get_weather_from_api. now rewrite Hk.
  - intros api_key request reason Hk Hq Hx.
    apply (weather_failure_run cl log city lang _ Hc).
    apply (served_weather w cl log city _ Hs).
    unfold ApiHelpers.get_weather_from_api in *. rewrite Hk in *.
    cbn [snd] in Hq. injection Hq as <-. cbn [fst]. now rewrite Hx.
  - intros Hk. apply (market_failure_run cl b log commodity market lang _ Hco Hm).
    apply (served_market w cl log commodity market _ Hs).
    unfold ApiHelpers.get_market_data_from_gov_api. now rewrite Hk.
  - intros api_key request reason Hk Hq Hx.
    apply (market_failure_run cl b log commodity market lang _ Hco Hm).
    apply (served_market w cl log commodity market _ Hs).
    unfold ApiHelpers.get_market_data_from_gov_api in *. rewrite Hk in *.
    cbn [snd] in Hq. injection Hq as <-. cbn [fst]. now rewrite Hx.
Qed.

Lemma no_keys_served : ApiHelpers.serves NoKeys.world NoKeys.helpers.
Proof. repeat split. Qed.

Lemma data_failure_witness :
  WeatherAgent.get_weather (PStr "Pune") (PStr "Hindi") NoKeys.helpers []
  = (Ok "Could not get weather for 'Pune'. Reason: OPENWEATHER_API_KEY not found.",
     [WeatherLookup (PStr "Pune")])
  /\ WeatherAgent.handle_request "get_simple_forecast" [("city", PStr "Pune")]
       NoKeys.helpers []
     = (Ok "Weather data unavailable.", [WeatherLookup (PStr "Pune")]).
Proof.
  apply (proj1 (data_failure_reaches_the_user
                  NoKeys.world NoKeys.helpers App.bridge
                  (PStr "Pune") (PStr "Potato") (PStr "Agra") (PStr "Hindi") []
                  no_keys_served eq_refl eq_refl eq_refl)).
  reflexivity.
Defined.

(** X18: a failure of the completion helper never reaches the user of
    the text path as such.  When the clients of the agents are the
    helpers of [api_helpers.py] and the helper answers the router with
    one of its four failure sentences (key not found, request error,
    blocked content, unexpected error), none of which is JSON, [ask]
    answers with the generic "not sure how to help" sentence, and no
    agent is called. *)
Theorem completion_failure_gets_generic_answer
        (w : ApiHelpers.world) (cl : clients) (req : App.request)
        (data : dict pyval) :
  ApiHelpers.serves w cl ->
  App.files_photo req = None ->
  App.json req = PDict data ->
  let query := match dict_get "query" data with Some q => q | None => PNone end in
  let prompt := App.router_prompt (Py.str query) in
  In (fst (ApiHelpers.call_gemini_api w prompt None))
     [PStr ApiHelpers.key_missing; PStr ApiHelpers.request_error;
      PStr ApiHelpers.blocked; PStr ApiHelpers.unexpected] ->
  exec (App.ask req) cl = (Ok (PStr App.not_sure), [Completion prompt None]).
Proof.
  intros [Hs _] Hp Hj query prompt Hin.
  apply (unreadable_reply_run cl req data Hp Hj). fold query. fold prompt.
  specialize (Hs [] prompt None). rewrite Hs in Hin.
  cbn [In] in Hin.
  destruct Hin as [H|[H|[H|[H|[]]]]]; injection H as <-; vm_compute; reflexivity.
Qed.

Lemma completion_failure_witness :
  exec (App.ask (text_request "weather in Pune")) NoKeys.helpers
  = (Ok (PStr App.not_sure), [Completion (App.router_prompt "weather in Pune") None]).
Proof.
  apply (completion_failure_gets_generic_answer
           NoKeys.world NoKeys.helpers (text_request "weather in Pune")
           [("query", PStr "weather in Pune"); ("language", PStr "English")]
           no_keys_served eq_refl eq_refl).
  left. reflexivity.
Defined.

(* ------------------------------------------------------------------ *)

Section VoiceFacts.
Import Text Voices.
Local Open Scope list_scope.

Lemma containsb_single (c : ascii) (s : list ascii) :
  containsb [c] s = false <-> ~ In c s.
Proof.
  induction s as [|x s IH]; cbn [containsb prefixb In].
  - split; [intros _ []|reflexivity].
  - rewrite andb_true_r, orb_false_iff, IH, Ascii.eqb_neq. split.
    + intros [H1 H2] [->|H]; [now destruct H1|now destruct H2].
    + intros H. split; [intros ->; apply H; now left|intros Hin; apply H; now right].
Qed.

Lemma replace_char_gone (c d : ascii) (s : list ascii) :
  c <> d -> ~ In c (replace_from [c] [d] 0 s).
Proof.
  intros Hne. induction s as [|x s IH]; [intros []|].
  cbn [replace_from prefixb List.length Nat.sub]. rewrite andb_true_r.
  destruct (Ascii.eqb_spec c x) as [<-|Hx]; cbn [app In].
  - intros [H|H]; [now destruct Hne|now destruct IH].
  - intros [H|H]; [now destruct Hx|now destruct IH].
Qed.

Lemma normalised_has_no_underscore (code : string) :
  str_in "_" (replace "_" "-" code) = false.
Proof.
  unfold str_in, replace. rewrite chars_text.
  apply (containsb_single "_"%char). apply replace_char_gone. discriminate.
Qed.

(** What [discover_from] holds for a key: what it held already, or else
    the first of the remaining voices that declares the key. *)
Lemma discover_from_lookup (voices : list voice) :
  forall (available : dict voice_info) (key : string),
    dict_get key (discover_from available voices)
    = match dict_get key available with
      | Some info => Some info
      | None => option_map info_of (find (declares key) voices)
      end.
Proof.
  induction voices as [|v rest IH]; intros available key.
  - cbn [discover_from find option_map]. now destruct (dict_get key available).
  - cbn [discover_from find]. unfold declares at 1.
    destruct (lang_code v) as [code|raw]; [|apply IH].
    set (n := replace "_" "-" code).
    destruct (dict_mem n available) eqn:Hmem; rewrite IH.
    + destruct (String.eqb_spec n key) as [<-|Hne]; [|reflexivity].
      unfold dict_mem in Hmem. now destruct (dict_get n available).
    + destruct (String.eqb_spec n key) as [<-|Hne].
      * rewrite dict_get_set_same. unfold dict_mem in Hmem.
        now destruct (dict_get n available).
      * rewrite dict_get_set_other by congruence. reflexivity.
Qed.

End VoiceFacts.

(** X19: [discover_voices] keeps, for each language code, the first
    voice that declares it, where a voice without languages declares
    [en_US], underscores are normalised to hyphens and voices whose
    language is given as bytes are skipped; so no key of the result
    holds an underscore. *)
Theorem discover_voices_keeps_first_voice
        (voices : list Voices.voice) (key : string) :
  dict_get key (Voices.discover_voices voices)
  = option_map Voices.info_of (find (Voices.declares key) voices)
  /\ (dict_mem key (Voices.discover_voices voices) = true ->
      Text.str_in "_" key = false).
Proof.
  assert (dict_get key (Voices.discover_voices voices)
          = option_map Voices.info_of (find (Voices.declares key) voices)) as E.
  { unfold Voices.discover_voices. now rewrite discover_from_lookup. }
  split; [exact E|].
  unfold dict_mem. rewrite E.
  destruct (find (Voices.declares key) voices) as [v|] eqn:F; [|discriminate].
  intros _. apply find_some in F. destruct F as [_ F].
  unfold Voices.declares in F. destruct (Voices.lang_code v); [|discriminate].
  apply String.eqb_eq in F. subst key. apply normalised_has_no_underscore.
Qed.

Lemma discover_voices_witness :
  Text.str_in "_" "hi-IN" = false.
Proof.
  apply (proj2 (discover_voices_keeps_first_voice
                  [{| Voices.voice_id := "v1"; Voices.voice_name := "Lekha";
                      Voices.languages := [Voices.LangStr "hi_IN"] |}] "hi-IN")).
  reflexivity.
Defined.

Section MenuFacts.
Import Voices.

(** The menu built from the desired languages is empty when none of
    them is installed, and otherwise starts with the entry "1". *)
Lemma menu_from_cases (system_voices : dict voice_info) :
  (menu_from 1 [] desired_languages system_voices = []
   /\ forall code, In code (map fst desired_languages) ->
                   dict_get code system_voices = None)
  \/ (exists first rest code,
         menu_from 1 [] desired_languages system_voices = ("1", first) :: rest
         /\ In code (map fst desired_languages)
         /\ dict_get code system_voices <> None).
Proof.
  unfold desired_languages. cbn [map fst menu_from].
  destruct (dict_get "en-US" system_voices) as [i1|] eqn:E1;
    [right; exists {| entry_name := "English"; rec_code := "en-US";
                      entry_voice_id := id i1 |}|];
    (destruct (dict_get "hi-IN" system_voices) as [i2|] eqn:E2;
     [try (right; exists {| entry_name := "हिन्दी"; rec_code := "hi-IN";
                            entry_voice_id := id i2 |})|]);
    (destruct (dict_get "kn-IN" system_voices) as [i3|] eqn:E3;
     [try (right; exists {| entry_name := "ಕನ್ನಡ"; rec_code := "kn-IN";
                            entry_voice_id := id i3 |})|]);
    (destruct (dict_get "te-IN" system_voices) as [i4|] eqn:E4;
     [try (right; exists {| entry_name := "తెలుగు"; rec_code := "te-IN";
                            entry_voice_id := id i4 |})|]);
    (destruct (dict_get "ta-IN" system_voices) as [i5|] eqn:E5;
     [try (right; exists {| entry_name := "தமிழ்"; rec_code := "ta-IN";
                            entry_voice_id := id i5 |})|]);
    cbn;
    try (left; split; [reflexivity|];
         intros code [<-|[<-|[<-|[<-|[<-|[]]]]]]; assumption);
    eexists; first
      [ exists "en-US"; split; [reflexivity|]; split; [tauto|congruence]
      | exists "hi-IN"; split; [reflexivity|]; split; [tauto|congruence]
      | exists "kn-IN"; split; [reflexivity|]; split; [tauto|congruence]
      | exists "te-IN"; split; [reflexivity|]; split; [tauto|congruence]
      | exists "ta-IN"; split; [reflexivity|]; split; [tauto|congruence] ].
Qed.

End MenuFacts.

(** X20: the language menu never fails.  [main] stops exactly when no
    desired language is installed and no installed code starts with
    [en]; otherwise the menu has an entry "1", so choosing a language
    raises nothing, and a choice that is not on the menu selects entry
    "1". *)
Theorem language_menu_is_safe (system_voices : dict Voices.voice_info) :
  (Voices.language_menu system_voices = None <->
   (forall code, In code (map fst Voices.desired_languages) ->
                 dict_get code system_voices = None)
   /\ (forall code, In code (map fst system_voices) ->
                    Text.prefixb (Text.chars "en") (Text.chars code) = false))
  /\ (forall display_map choice,
         Voices.language_menu system_voices = Some display_map ->
         exists first,
           dict_get "1" display_map = Some first
           /\ Voices.selected_lang display_map choice
              = Ok match dict_get choice display_map with
                   | Some e => e
                   | None => first
                   end).
Proof.
  set (p := fun kv : string * Voices.voice_info =>
              Text.prefixb (Text.chars "en") (Text.chars (fst kv))).
  assert (find p system_voices = None <->
          forall code, In code (map fst system_voices) ->
                       Text.prefixb (Text.chars "en") (Text.chars code) = false) as Hfind.
  { split.
    - intros H code Hin. apply in_map_iff in Hin. destruct Hin as [[k i] [<- Hin]].
      exact (find_none p system_voices H (k, i) Hin).
    - intros H. destruct (find p system_voices) as [[k i]|] eqn:F; [|reflexivity].
      apply find_some in F. destruct F as [Hin F].
      unfold p in F. cbn [fst] in F.
      rewrite (H k) in F; [discriminate|].
      apply in_map_iff. now exists (k, i). }
  unfold Voices.language_menu, Voices.selected_lang. fold p.
  destruct (menu_from_cases system_voices)
    as [[-> Hnone] | [first [rest [code [-> [Hin Hsome]]]]]].
  - split.
    + rewrite <- Hfind.
      destruct (find p system_voices) as [[k i]|]; split; try tauto;
        try discriminate. intros [_ H]. discriminate H.
    + intros display_map choice.
      destruct (find p system_voices) as [[k i]|]; [|discriminate].
      intros [= <-]. cbn [dict_get String.eqb Ascii.eqb Bool.eqb]. eauto.
  - split.
    + split; [discriminate|]. intros [Hd _]. now destruct (Hsome (Hd code Hin)).
    + intros display_map choice [= <-].
      cbn [dict_get String.eqb Ascii.eqb Bool.eqb]. eauto.
Qed.

Lemma language_menu_witness :
  exists first,
    dict_get "1" [("1", {| Voices.entry_name := "Default English";
                           Voices.rec_code := "en-US";
                           Voices.entry_voice_id := "v7" |})] = Some first
    /\ Voices.selected_lang
         [("1", {| Voices.entry_name := "Default English";
                   Voices.rec_code := "en-US";
                   Voices.entry_voice_id := "v7" |})] "9"
       = Ok first.
Proof.
  exact (proj2 (language_menu_is_safe
                  [("en-GB", {| Voices.id := "v7"; Voices.name := "Daniel" |})])
           [("1", {| Voices.entry_name := "Default English";
                     Voices.rec_code := "en-US";
                     Voices.entry_voice_id := "v7" |})]
           "9" eq_refl).
Defined.

(** X21: on a system whose voices declare no language at all, every
    voice counts as [en_US], so the menu offers English alone, spoken
    by the first voice of the engine. *)
Theorem voices_without_languages_give_english
        (v : Voices.voice) (voices : list Voices.voice) :
  Forall (fun x => Voices.languages x = []) (v :: voices) ->
  Voices.discover_voices (v :: voices) = [("en-US", Voices.info_of v)]
  /\ Voices.language_menu (Voices.discover_voices (v :: voices))
     = Some [("1", {| Voices.entry_name := "English"; Voices.rec_code := "en-US";
                      Voices.entry_voice_id := Voices.voice_id v |})].
Proof.
  intros H.
  assert (Voices.discover_voices (v :: voices) = [("en-US", Voices.info_of v)]) as E.
  { unfold Voices.discover_voices. cbn [Voices.discover_from].
    inversion H as [|x l Hv Hrest]; subst. unfold Voices.lang_code at 1. rewrite Hv.
    change (Text.replace "_" "-" "en_US") with "en-US".
    cbn [dict_mem dict_get dict_set]. fold (Voices.info_of v).
    induction Hrest as [|y l Hy _ IH]; [reflexivity|].
    cbn [Voices.discover_from]. unfold Voices.lang_code at 1. rewrite Hy.
    change (Text.replace "_" "-" "en_US") with "en-US".
    cbn [dict_mem dict_get String.eqb Ascii.eqb Bool.eqb]. apply IH.
    constructor; [exact Hv|]. now inversion H; subst; inversion H3. }
  split; [exact E|]. rewrite E. reflexivity.
Qed.

Lemma voices_without_languages_witness :
  Voices.language_menu
    (Voices.discover_voices
       [{| Voices.voice_id := "HKEY/David"; Voices.voice_name := "David";
           Voices.languages := [] |};
        {| Voices.voice_id := "HKEY/Zira"; Voices.voice_name := "Zira";
           Voices.languages := [] |}])
  = Some [("1", {| Voices.entry_name := "English"; Voices.rec_code := "en-US";
                   Voices.entry_voice_id := "HKEY/David" |})].
Proof.
  apply (fun H => proj2 (voices_without_languages_give_english
                  {| Voices.voice_id := "HKEY/David"; Voices.voice_name := "David";
                     Voices.languages := [] |}
                  [{| Voices.voice_id := "HKEY/Zira"; Voices.voice_name := "Zira";
                      Voices.languages := [] |}] H)).
  repeat constructor.
Defined.

(* ------------------------------------------------------------------ *)

(** X22: the prompt of the router offers every agent of the dispatch
    table: each key of [agents], and "General", occurs in the prompt
    between double quotes, and so does the query as given, whatever the
    query is. *)
Theorem router_prompt_offers_every_agent (query label : string) :
  In label (map fst App.agents) \/ label = "General" ->
  Text.str_in (Text.dq ++ label ++ Text.dq) (App.router_prompt query) = true
  /\ Text.str_in (Text.dq ++ query ++ Text.dq) (App.router_prompt query) = true.
Proof.
  intros H. destruct (router_prompt_split query) as [before [after [-> Ha]]].
  split.
  - apply str_in_append_r, str_in_append_r, Ha, H.
  - apply str_in_middle.
Qed.

Lemma router_prompt_witness :
  Text.str_in (Text.dq ++ "SoilAgent" ++ Text.dq) (App.router_prompt "red soil") = true.
Proof.
  apply (proj1 (router_prompt_offers_every_agent "red soil" "SoilAgent"
                  (or_introl (or_intror (or_intror (or_intror (or_intror
                     (or_intror (or_introl eq_refl))))))))).
Defined.

(* ------------------------------------------------------------------ *)

Section AgentRuns.

Lemma scheme_run (query lang : pyval) (cl : clients) (log : list event) :
  Py.truthy query = true ->
  SchemeAgent.find_schemes query lang cl log
  = call_gemini_api (Prompts.scheme_prompt (Py.str query) (Py.str lang)) None cl log.
Proof. intros H. unfold SchemeAgent.find_schemes. now rewrite H. Qed.

Lemma organic_run (topic lang : pyval) (cl : clients) (log : list event) :
  Py.truthy topic = true ->
  OrganicAgent.get_tips topic lang cl log
  = call_gemini_api (Prompts.organic_prompt (Py.str topic) (Py.str lang)) None cl log.
Proof. intros H. unfold OrganicAgent.get_tips. now rewrite H. Qed.

Lemma soil_run (query lang : pyval) (cl : clients) (log : list event) :
  Py.truthy query = true ->
  SoilAgent.analyze_soil query lang cl log
  = call_gemini_api (Prompts.soil_prompt (Py.str query) (Py.str lang)) None cl log.
Proof. intros H. unfold SoilAgent.analyze_soil. now rewrite H. Qed.


End AgentRuns.





(* ------------------------------------------------------------------ *)

(** X25: a complete decision for the scheme, organic or soil agent is
    answered by the completion client alone.  In the text path, when the
    router names one of these agents and gives its parameter non-empty,
    [ask] returns, unchanged, the reply of the completion client to the
    prompt of that agent built from the parameter of the decision and
    the language of the request; the run makes two completion calls (the
    router's and the agent's) and nothing else. *)
Theorem complete_decision_gets_agent_reply
        (cl : clients) (req : App.request) (data ri params : dict pyval)
        (label : string) :
  App.files_photo req = None ->
  App.json req = PDict data ->
  let query := match dict_get "query" data with Some q => q | None => PNone end in
  let language :=
    match dict_get "language" data with Some l => l | None => PStr "English" end in
  let arg key := match dict_get key params with
                 | Some v => v
                 | None => PNone
                 end in
  let routed := [Completion (App.router_prompt (Py.str query)) None] in
  let answer prompt :=
    exec (App.ask req) cl
    = (Ok (PStr (gemini cl routed prompt None)),
       (routed ++ [Completion prompt None])%list) in
  fst (exec (App.route_query_to_agent query language) cl) = Ok (PDict ri) ->
  dict_get "agent" ri = Some (PStr label) ->
  dict_get "parameters" ri = Some (PDict params) ->
  (label = "SchemeAgent" -> Py.truthy (arg "query") = true ->
   answer (Prompts.scheme_prompt (Py.str (arg "query")) (Py.str language)))
  /\ (label = "OrganicAgent" -> Py.truthy (arg "topic") = true ->
      answer (Prompts.organic_prompt (Py.str (arg "topic")) (Py.str language)))
  /\ (label = "SoilAgent" -> Py.truthy (arg "query") = true ->
      answer (Prompts.soil_prompt (Py.str (arg "query")) (Py.str language))).
Proof.
  intros Hp Hj query language arg routed answer Hr Ha Hq. subst answer. cbv beta.
  rewrite (ask_after_route cl req data (PDict ri) Hp Hj Hr).
  cbn [Py.get]. rewrite Ha, bind_lift_ok. rewrite Hq, bind_lift_ok.
  subst arg. cbv beta.
  repeat split; intros -> Hm.
  - reach_agent "SchemeAgent" Scheme. cbn [App.call_find_schemes].
    apply try_except_ok. erewrite bind_run; [reflexivity|].
    now rewrite scheme_run.
  - reach_agent "OrganicAgent" Organic. cbn [App.call_get_tips].
    apply try_except_ok. erewrite bind_run; [reflexivity|].
    now rewrite organic_run.
  - reach_agent "SoilAgent" Soil. cbn [App.call_analyze_soil].
    apply try_except_ok. erewrite bind_run; [reflexivity|].
    now rewrite soil_run.
Qed.

Lemma complete_decision_witness :
  let reply :=
    "{" ++ Text.dq ++ "agent" ++ Text.dq ++ ": " ++ Text.dq ++ "SchemeAgent" ++ Text.dq ++ ", "
    ++ Text.dq ++ "parameters" ++ Text.dq ++ ": {" ++ Text.dq ++ "query" ++ Text.dq ++ ": "
    ++ Text.dq ++ "drip irrigation" ++ Text.dq ++ "}}" in
  exec (App.ask (text_request "subsidy for drip irrigation"))
       (fixed_clients reply PNone PNone)
  = (Ok (PStr reply),
     [Completion (App.router_prompt "subsidy for drip irrigation") None;
      Completion (Prompts.scheme_prompt "drip irrigation" "English") None]).
Proof.
  intros reply.
  apply (proj1
           (complete_decision_gets_agent_reply
              (fixed_clients reply PNone PNone)
              (text_request "subsidy for drip irrigation")
              [("query", PStr "subsidy for drip irrigation");
               ("language", PStr "English")]
              [("agent", PStr "SchemeAgent");
               ("parameters", PDict [("query", PStr "drip irrigation")])]
              [("query", PStr "drip irrigation")] "SchemeAgent"
              eq_refl eq_refl eq_refl eq_refl eq_refl)); reflexivity.
Defined.
